(** * HordeNG: the job-submission and polling lifecycle of GenerateImageComponent

    A shallow embedding of [GenerateImageComponent] (generate-image component):
    the interval callback registered in [ngOnInit], [generateImage],
    [formAsOptions] and [downloadImages].

    The component is a single-threaded object whose asynchronous methods are
    sequences of awaited collaborator calls.  Each method is embedded as a
    computation in a state-and-exception monad over a [World] that holds
    the component's signals, the persisted database, the browser's registry
    of object URLs and the trace of every collaborator call.  The answers of
    the remote collaborators (API client, HTTP client) are inputs of the
    computation. *)

From stdpp Require Import base option list strings gmap pretty.
From Stdlib Require Import ZArith QArith.

Local Open Scope Z_scope.
Local Open Scope string_scope.
Local Open Scope list_scope.

(** ** Data model *)

(** [types/horde/sampler] is only referenced through [Sampler.k_dpmpp_sde]. *)
Inductive Sampler : Type :=
  | k_dpmpp_sde
  | other_sampler (name : string).

(** [types/db/generation-options]: the fields built by [formAsOptions]. *)
Module GenerationOptions.
Record t : Type := mk {
  prompt : string;
  negativePrompt : option string;
  sampler : Sampler;
  cfgScale : Q;
  denoisingStrength : Q;
  height : Z;
  width : Z;
  steps : Q;
  model : string;
  karras : bool;
}.
End GenerationOptions.

(** [types/db/job-in-progress]: the identifier returned by the API on
    submission, plus the rest of the submission answer kept opaque. *)
Module JobInProgress.
Record t : Type := mk {
  id : string;
  submission : string;
}.
End JobInProgress.

(** [types/job-metadata]. *)
Module JobMetadata.
Record t : Type := mk {
  requestId : string;
  height : Z;
  width : Z;
}.
End JobMetadata.

(** [types/horde/request-status-check]: the two flags the loop reads, and
    the rest of the snapshot (the estimated wait). *)
Module RequestStatusCheck.
Record t : Type := mk {
  is_possible : bool;
  done : bool;
  wait_time : Z;
}.
End RequestStatusCheck.

(** [types/horde/generation-result]. *)
Module GenerationResult.
Record t : Type := mk {
  img : string;
  worker_id : string;
  worker_name : string;
  model : string;
  seed : string;
  id : string;
  censored : bool;
}.
End GenerationResult.

(** [types/horde/request-status-full]. *)
Module RequestStatusFull.
Record t : Type := mk {
  generations : list GenerationResult.t;
  kudos : Q;
}.
End RequestStatusFull.

(** [interface Result] of the component. *)
Module Result.
Record t : Type := mk {
  width : Z;
  height : Z;
  source : string;
  workerId : string;
  workerName : string;
  model : string;
  seed : string;
  id : string;
  censored : bool;
  kudos : Q;
}.
End Result.

(** The value of the reactive form: every control may hold [null].  The
    number controls of height and width are taken over the integers, as
    [divisibleBy] rejects every other number; steps has no such validator
    and may hold any number. *)
Module Form.
Record t : Type := mk {
  prompt : option string;
  negativePrompt : option string;
  sampler : option Sampler;
  cfgScale : option Q;
  denoisingStrength : option Q;
  height : option Z;
  width : option Z;
  steps : option Q;
  model : option string;
}.
End Form.

(** The body of a downloaded image. *)
Definition Blob : Type := list Byte.byte.

(** The answer of an API client call: [success] with [successResponse], or
    [errorResponse] with its [message] and [rc]. *)
Record ErrorResponse : Type := mkErrorResponse {
  message : string;
  rc : string;
}.

Inductive ApiResponse (T : Type) : Type :=
  | ApiSuccess (successResponse : T)
  | ApiFailure (errorResponse : ErrorResponse).
Arguments ApiSuccess {T} successResponse.
Arguments ApiFailure {T} errorResponse.

(** The outcome of [httpClient.get(url, {observe: 'response', responseType:
    'blob'})] turned into a promise: the promise rejects, or it resolves to a
    response whose [body] is a blob or [null]. *)
Inductive HttpOutcome : Type :=
  | HttpRejected
  | HttpResolved (body : option Blob).

(** The messages handed to [messageService.error], by translation key. *)
Inductive UserMessage : Type :=
  | api_error (message code : string)
  | generate_impossible
  | form_invalid
  | generation_in_progress
  | image_download_failed.

Definition translation_key (m : UserMessage) : string :=
  match m with
  | api_error _ _ => "app.error.api_error"
  | generate_impossible => "app.error.generate.impossible"
  | form_invalid => "app.error.form_invalid"
  | generation_in_progress => "app.error.generation_in_progress"
  | image_download_failed => "app.error.image_download_failed"
  end.

(** Every call the component makes on a collaborator, in program order. *)
Inductive Event : Type :=
  | ApiCheckGenerationStatus (job : JobInProgress.t)
  | ApiCancelJob (job : JobInProgress.t)
  | ApiGetGeneratedImageResult (job : JobInProgress.t)
  | ApiGenerateImage (options : GenerationOptions.t)
  | HttpGet (url : string)
  | DbGetJobsInProgress
  | DbAddInProgressJob (job : JobInProgress.t)
  | DbDeleteInProgressJob (job : JobInProgress.t)
  | DbGetJobMetadata (job : JobInProgress.t)
  | DbStoreJobMetadata (metadata : JobMetadata.t)
  | MessageError (msg : UserMessage)
  | UrlCreateObjectURL (url : string)
  | UrlRevokeObjectURL (url : string)
  | ConsoleLog.

Definition is_cancellation (e : Event) : bool :=
  match e with ApiCancelJob _ => true | _ => false end.

Definition is_result_fetch (e : Event) : bool :=
  match e with ApiGetGeneratedImageResult _ => true | _ => false end.

Definition is_status_check (e : Event) : bool :=
  match e with ApiCheckGenerationStatus _ => true | _ => false end.

Definition is_message (e : Event) : bool :=
  match e with MessageError _ => true | _ => false end.

(** Calls that leave the browser: API client and HTTP client. *)
Definition is_network_call (e : Event) : bool :=
  match e with
  | ApiCheckGenerationStatus _ | ApiCancelJob _ | ApiGetGeneratedImageResult _
  | ApiGenerateImage _ | HttpGet _ => true
  | _ => false
  end.

(** Calls that write the persisted state. *)
Definition is_database_write (e : Event) : bool :=
  match e with
  | DbAddInProgressJob _ | DbDeleteInProgressJob _ | DbStoreJobMetadata _ => true
  | _ => false
  end.

Definition count (p : Event -> bool) (evs : list Event) : nat :=
  length (List.filter p evs).

(** What an awaited call can throw into the async function. *)
Inductive Exception : Type :=
  | Error (msg : string)
  | TypeError (msg : string)
  | HttpErrorResponse (url : string).

(** ** The persisted store *)

(** Modelled from the spec: [DatabaseService] (services/database.service is
    not part of the inspected sources).  The spec gives its operations
    [getJobsInProgress / addInProgressJob / deleteInProgressJob] and
    [getJobMetadata / storeJobMetadata]: a list of persisted JobInProgress
    records, of which the component reads the first, and the JobMetadata
    cached by request id.  A record is identified by its identifier. *)
Module DatabaseService.
Record t : Type := mk {
  jobs : list JobInProgress.t;
  metadata : gmap string JobMetadata.t;
}.

Definition getJobsInProgress (db : t) : list JobInProgress.t := jobs db.

Definition addInProgressJob (job : JobInProgress.t) (db : t) : t :=
  mk (jobs db ++ [job]) (metadata db).

Definition deleteInProgressJob (job : JobInProgress.t) (db : t) : t :=
  mk (filter (λ j, JobInProgress.id j ≠ JobInProgress.id job) (jobs db))
     (metadata db).

Definition getJobMetadata (job : JobInProgress.t) (db : t)
  : option JobMetadata.t :=
  metadata db !! JobInProgress.id job.

Definition storeJobMetadata (md : JobMetadata.t) (db : t) : t :=
  mk (jobs db) (<[JobMetadata.requestId md := md]> (metadata db)).
End DatabaseService.

(** ** The browser's object URLs *)

(** [URL.createObjectURL] hands out a URL never issued before and keeps the
    blob alive under it; [URL.revokeObjectURL] releases it. *)
Module URL.
Record t : Type := mk {
  issued : nat;
  live : gmap string Blob;
  revoked : gset string;
}.

Definition blob_url (n : nat) : string := "blob:" +:+ pretty n.

Definition createObjectURL (image : Blob) (u : t) : string * t :=
  let url := blob_url (issued u) in
  (url, mk (S (issued u)) (<[url := image]> (live u)) (revoked u)).

Definition revokeObjectURL (url : string) (u : t) : t :=
  mk (issued u) (delete url (live u)) ({[url]} ∪ revoked u).
End URL.

(** ** The component and its world *)

Record World : Type := mkWorld {
  (* signals and form of the component *)
  loading : bool;
  inProgress : option JobInProgress.t;
  result : option Result.t;
  requestStatus : option RequestStatusCheck.t;
  form : Form.t;
  (* collaborators with local state *)
  database : DatabaseService.t;
  urls : URL.t;
  (* every collaborator call so far, oldest first *)
  trace : list Event;
}.

Definition set_loading (b : bool) (w : World) : World :=
  mkWorld b (inProgress w) (result w) (requestStatus w) (form w)
          (database w) (urls w) (trace w).

Definition set_inProgress (j : option JobInProgress.t) (w : World) : World :=
  mkWorld (loading w) j (result w) (requestStatus w) (form w)
          (database w) (urls w) (trace w).

Definition set_result (r : option Result.t) (w : World) : World :=
  mkWorld (loading w) (inProgress w) r (requestStatus w) (form w)
          (database w) (urls w) (trace w).

Definition set_requestStatus (s : option RequestStatusCheck.t) (w : World)
  : World :=
  mkWorld (loading w) (inProgress w) (result w) s (form w)
          (database w) (urls w) (trace w).

Definition set_database (db : DatabaseService.t) (w : World) : World :=
  mkWorld (loading w) (inProgress w) (result w) (requestStatus w) (form w)
          db (urls w) (trace w).

Definition set_urls (u : URL.t) (w : World) : World :=
  mkWorld (loading w) (inProgress w) (result w) (requestStatus w) (form w)
          (database w) u (trace w).

Definition record (e : Event) (w : World) : World :=
  mkWorld (loading w) (inProgress w) (result w) (requestStatus w) (form w)
          (database w) (urls w) (trace w ++ [e]).

(** ** Async methods as computations *)

(** An async method either runs to its end or throws (its promise
    rejects); in both cases the world it leaves behind is observable. *)
Inductive Outcome (A : Type) : Type :=
  | Returned (a : A) (w : World)
  | Thrown (e : Exception) (w : World).
Arguments Returned {A} a w.
Arguments Thrown {A} e w.

Definition Async (A : Type) : Type := World -> Outcome A.

Definition ret {A} (a : A) : Async A := fun w => Returned a w.

Definition bind {A B} (c : Async A) (k : A -> Async B) : Async B :=
  fun w =>
    match c w with
    | Returned a w' => k a w'
    | Thrown e w' => Thrown e w'
    end.

Definition throw {A} (e : Exception) : Async A := fun w => Thrown e w.

Definition read {A} (f : World -> A) : Async A := fun w => Returned (f w) w.

Definition update (f : World -> World) : Async unit :=
  fun w => Returned tt (f w).

Declare Scope async_scope.
Delimit Scope async_scope with async.
Notation "x <- c ;; k" := (bind c (fun x => k))
  (at level 100, c at next level, right associativity) : async_scope.
Notation "c ;; k" := (bind c (fun _ => k))
  (at level 100, right associativity) : async_scope.
Local Open Scope async_scope.

Definition final_world {A} (o : Outcome A) : World :=
  match o with
  | Returned _ w => w
  | Thrown _ w => w
  end.

Definition completes {A} (o : Outcome A) : Prop :=
  match o with
  | Returned _ _ => True
  | Thrown _ _ => False
  end.

(** The calls the method at hand added to the trace of [w]. *)
Definition calls_since (w w' : World) : list Event :=
  drop (length (trace w)) (trace w').

(** ** Collaborators *)

(** What the remote side answers during one tick of the polling loop.  The
    answer of [cancelJob] is awaited and dropped by the component. *)
Record Remote : Type := mkRemote {
  checkGenerationStatus : ApiResponse RequestStatusCheck.t;
  getGeneratedImageResult : ApiResponse RequestStatusFull.t;
  (* the outcome of the [i]-th download of the tick, from its URL *)
  httpGet : nat -> string -> HttpOutcome;
}.

Definition api_checkGenerationStatus (net : Remote) (job : JobInProgress.t)
  : Async (ApiResponse RequestStatusCheck.t) :=
  update (record (ApiCheckGenerationStatus job)) ;;
  ret (checkGenerationStatus net).

Definition api_cancelJob (job : JobInProgress.t) : Async unit :=
  update (record (ApiCancelJob job)).

Definition api_getGeneratedImageResult (net : Remote) (job : JobInProgress.t)
  : Async (ApiResponse RequestStatusFull.t) :=
  update (record (ApiGetGeneratedImageResult job)) ;;
  ret (getGeneratedImageResult net).

Definition api_generateImage (response : ApiResponse JobInProgress.t)
    (options : GenerationOptions.t) : Async (ApiResponse JobInProgress.t) :=
  update (record (ApiGenerateImage options)) ;;
  ret response.

Definition messageService_error (msg : UserMessage) : Async unit :=
  update (record (MessageError msg)).

Definition database_getJobsInProgress : Async (list JobInProgress.t) :=
  update (record DbGetJobsInProgress) ;;
  read (fun w => DatabaseService.getJobsInProgress (database w)).

Definition database_addInProgressJob (job : JobInProgress.t) : Async unit :=
  update (record (DbAddInProgressJob job)) ;;
  update (fun w =>
    set_database (DatabaseService.addInProgressJob job (database w)) w).

Definition database_deleteInProgressJob (job : JobInProgress.t) : Async unit :=
  update (record (DbDeleteInProgressJob job)) ;;
  update (fun w =>
    set_database (DatabaseService.deleteInProgressJob job (database w)) w).

Definition database_getJobMetadata (job : JobInProgress.t)
  : Async (option JobMetadata.t) :=
  update (record (DbGetJobMetadata job)) ;;
  read (fun w => DatabaseService.getJobMetadata job (database w)).

Definition database_storeJobMetadata (md : JobMetadata.t) : Async unit :=
  update (record (DbStoreJobMetadata md)) ;;
  update (fun w =>
    set_database (DatabaseService.storeJobMetadata md (database w)) w).

Definition URL_createObjectURL (image : Blob) : Async string :=
  fun w =>
    let (url, u) := URL.createObjectURL image (urls w) in
    Returned url (record (UrlCreateObjectURL url) (set_urls u w)).

Definition URL_revokeObjectURL (url : string) : Async unit :=
  update (fun w =>
    record (UrlRevokeObjectURL url)
           (set_urls (URL.revokeObjectURL url (urls w)) w)).

Definition console_log : Async unit := update (record ConsoleLog).

(** [this.inProgress()!]: the signal is read again at every use; the
    non-null assertion is erased at run time and a [null] would be
    dereferenced by the callee. *)
Definition inProgress_nonnull : Async JobInProgress.t :=
  cur <- read inProgress ;;
  match cur with
  | Some job => ret job
  | None => throw (TypeError "Cannot read properties of null")
  end.

(** ** The form *)

(** Angular's built-in validators on one control value.  [required] rejects
    [null] and the empty string; [min] and [max] accept [null]. *)
Definition required_string (v : option string) : bool :=
  match v with
  | None => false
  | Some s => negb (String.eqb s "")
  end.

Definition required {A} (v : option A) : bool :=
  match v with
  | None => false
  | Some _ => true
  end.

Definition min_Z (m : Z) (v : option Z) : bool :=
  match v with
  | None => true
  | Some x => (m <=? x)%Z
  end.

Definition max_Z (m : Z) (v : option Z) : bool :=
  match v with
  | None => true
  | Some x => (x <=? m)%Z
  end.

Definition min_Q (m : Q) (v : option Q) : bool :=
  match v with
  | None => true
  | Some x => Qle_bool m x
  end.

Definition max_Q (m : Q) (v : option Q) : bool :=
  match v with
  | None => true
  | Some x => Qle_bool x m
  end.

(** Modelled from the spec: [AppValidators.divisibleBy] (helper/app-validators
    is not part of the inspected sources): height and width must each be
    divisible by 64. *)
Definition divisibleBy (d : Z) (v : option Z) : bool :=
  match v with
  | None => true
  | Some x => (Z.rem x d =? 0)%Z
  end.

(** [this.form.valid]: every control passes all of its validators. *)
Definition form_valid (f : Form.t) : bool :=
  required_string (Form.prompt f)
  && required (Form.sampler f)
  && (required (Form.cfgScale f)
      && min_Q 0 (Form.cfgScale f) && max_Q 100 (Form.cfgScale f))
  && (min_Q (1 # 100) (Form.denoisingStrength f)
      && max_Q 1 (Form.denoisingStrength f))
  && (required (Form.height f) && min_Z 64 (Form.height f)
      && max_Z 3072 (Form.height f) && divisibleBy 64 (Form.height f))
  && (required (Form.width f) && min_Z 64 (Form.width f)
      && max_Z 3072 (Form.width f) && divisibleBy 64 (Form.width f))
  && (required (Form.steps f) && min_Q 1 (Form.steps f)
      && max_Q 500 (Form.steps f))
  && required_string (Form.model f).

(** [get formAsOptions()]. *)
Definition formAsOptions (f : Form.t) : GenerationOptions.t :=
  {| GenerationOptions.prompt := default "" (Form.prompt f);
     GenerationOptions.negativePrompt := Form.negativePrompt f;
     GenerationOptions.sampler := default k_dpmpp_sde (Form.sampler f);
     GenerationOptions.cfgScale := default (75 # 100) (Form.cfgScale f);
     GenerationOptions.denoisingStrength :=
       default (75 # 100) (Form.denoisingStrength f);
     GenerationOptions.height := default 512 (Form.height f);
     GenerationOptions.width := default 512 (Form.width f);
     GenerationOptions.steps := default 30%Q (Form.steps f);
     GenerationOptions.model := default "" (Form.model f);
     GenerationOptions.karras := true |}.

(** A number that is an integer. *)
Definition is_integer (q : Q) : bool :=
  (Qnum q mod Zpos (Qden q) =? 0)%Z.

(** The field constraints on GenerationOptions in the spec's words (data
    model): prompt required and non-empty; cfgScale in [0,100];
    denoisingStrength in [0.01,1]; height and width in [64,3072] and
    multiples of 64; steps an integer in [1,500]; model required.  Kept
    apart from [form_valid], which is what the code checks. *)
Definition spec_field_constraints (o : GenerationOptions.t) : bool :=
  negb (String.eqb (GenerationOptions.prompt o) "")
  && (Qle_bool 0 (GenerationOptions.cfgScale o)
      && Qle_bool (GenerationOptions.cfgScale o) 100)
  && (Qle_bool (1 # 100) (GenerationOptions.denoisingStrength o)
      && Qle_bool (GenerationOptions.denoisingStrength o) 1)
  && ((64 <=? GenerationOptions.height o)%Z
      && (GenerationOptions.height o <=? 3072)%Z
      && (GenerationOptions.height o mod 64 =? 0)%Z)
  && ((64 <=? GenerationOptions.width o)%Z
      && (GenerationOptions.width o <=? 3072)%Z
      && (GenerationOptions.width o mod 64 =? 0)%Z)
  && (Qle_bool 1 (GenerationOptions.steps o)
      && Qle_bool (GenerationOptions.steps o) 500
      && is_integer (GenerationOptions.steps o))
  && negb (String.eqb (GenerationOptions.model o) "").

(** The same constraints without the one that no validator of the form
    looks at: that steps be an integer. *)
Definition validated_field_constraints (o : GenerationOptions.t) : bool :=
  negb (String.eqb (GenerationOptions.prompt o) "")
  && (Qle_bool 0 (GenerationOptions.cfgScale o)
      && Qle_bool (GenerationOptions.cfgScale o) 100)
  && (Qle_bool (1 # 100) (GenerationOptions.denoisingStrength o)
      && Qle_bool (GenerationOptions.denoisingStrength o) 1)
  && ((64 <=? GenerationOptions.height o)%Z
      && (GenerationOptions.height o <=? 3072)%Z
      && (GenerationOptions.height o mod 64 =? 0)%Z)
  && ((64 <=? GenerationOptions.width o)%Z
      && (GenerationOptions.width o <=? 3072)%Z
      && (GenerationOptions.width o mod 64 =? 0)%Z)
  && (Qle_bool 1 (GenerationOptions.steps o)
      && Qle_bool (GenerationOptions.steps o) 500)
  && negb (String.eqb (GenerationOptions.model o) "").

(** ** [downloadImages] *)

(** The [for] loop: every [promises.push(toPromise(httpClient.get(...)))]
    starts its request before any answer is awaited. *)
Fixpoint push_requests (net : Remote) (i : nat)
    (generations : list GenerationResult.t)
  : Async (list (string * HttpOutcome)) :=
  match generations with
  | [] => ret []
  | generation :: rest =>
      let url := GenerationResult.img generation in
      update (record (HttpGet url)) ;;
      promises <- push_requests net (S i) rest ;;
      ret ((url, httpGet net i url) :: promises)
  end.

(** [await Promise.all(promises)]: the bodies of all responses, or the
    rejection of a download thrown into the caller. *)
Fixpoint promise_all (promises : list (string * HttpOutcome))
  : Exception + list (option Blob) :=
  match promises with
  | [] => inr []
  | (url, HttpRejected) :: _ => inl (HttpErrorResponse url)
  | (_, HttpResolved body) :: rest =>
      match promise_all rest with
      | inl e => inl e
      | inr bodies => inr (body :: bodies)
      end
  end.

Definition await_all (promises : list (string * HttpOutcome))
  : Async (list (option Blob)) :=
  match promise_all promises with
  | inl e => throw e
  | inr bodies => ret bodies
  end.

(** [metadata] is what [getJobMetadata] gave: the caller's non-null
    assertion is erased at run time. *)
Definition downloadImages (net : Remote) (res : RequestStatusFull.t)
    (metadata : option JobMetadata.t) : Async unit :=
  let generations := RequestStatusFull.generations res in
  promises <- push_requests net 0 generations ;;
  responses <- await_all promises ;;
  (* todo handle multiple images *)
  match head responses with
  | None => throw (TypeError "Cannot read properties of undefined (reading 'body')")
  | Some None =>
      messageService_error image_download_failed
  | Some (Some image) =>
      console_log ;;
      source <- URL_createObjectURL image ;;
      match metadata, head generations with
      | None, _ =>
          throw (TypeError "Cannot read properties of undefined (reading 'width')")
      | Some _, None =>
          throw (TypeError "Cannot read properties of undefined (reading 'worker_id')")
      | Some md, Some first =>
          update (set_result (Some
            {| Result.source := source;
               Result.width := JobMetadata.width md;
               Result.height := JobMetadata.height md;
               Result.workerId := GenerationResult.worker_id first;
               Result.model := GenerationResult.model first;
               Result.censored := GenerationResult.censored first;
               Result.workerName := GenerationResult.worker_name first;
               Result.seed := GenerationResult.seed first;
               Result.id := GenerationResult.id first;
               Result.kudos := RequestStatusFull.kudos res |}))
      end
  end.

(** ** The polling loop *)

(** [ngOnInit], line
    [this.inProgress.set((await this.database.getJobsInProgress())[0] ?? null)]:
    a job persisted by an earlier session is picked up again. *)
Definition restoreInProgress : Async unit :=
  persisted <- database_getJobsInProgress ;;
  update (set_inProgress (head persisted)).

(** The callback subscribed to [interval(1_000)]: one tick. *)
Definition intervalCallback (net : Remote) : Async unit :=
  cur <- read inProgress ;;
  match cur with
  | None => ret tt
  | Some _ =>
    job <- inProgress_nonnull ;;
    response <- api_checkGenerationStatus net job ;;
    match response with
    | ApiFailure e =>
        messageService_error (api_error (message e) (rc e))
    | ApiSuccess status =>
        update (set_requestStatus (Some status)) ;;
        if negb (RequestStatusCheck.is_possible status) then
          job <- inProgress_nonnull ;;
          api_cancelJob job ;;
          job <- inProgress_nonnull ;;
          database_deleteInProgressJob job ;;
          update (set_inProgress None) ;;
          messageService_error generate_impossible
        else if RequestStatusCheck.done status then
          update (set_loading true) ;;
          cur <- read inProgress ;;
          job <- match cur with
                 | Some job => ret (Some job)
                 | None =>
                     persisted <- database_getJobsInProgress ;;
                     ret (head persisted)
                 end ;;
          match job with
          | None => throw (Error "Job cannot be null")
          | Some job =>
            resultResponse <- api_getGeneratedImageResult net job ;;
            match resultResponse with
            | ApiFailure e =>
                messageService_error (api_error (message e) (rc e)) ;;
                update (set_loading false)
            | ApiSuccess res =>
                metadata <- database_getJobMetadata job ;;
                downloadImages net res metadata ;;
                cur <- read inProgress ;;
                match cur with
                | Some _ =>
                    job <- inProgress_nonnull ;;
                    database_deleteInProgressJob job ;;
                    update (set_inProgress None)
                | None => ret tt
                end ;;
                update (set_loading false)
            end
          end
        else ret tt
    end
  end.

(** The interval keeps firing whatever a callback did: a rejected callback
    is an unhandled rejection and the next tick starts from the world it
    left.  Ticks do not overlap (sequential single-tick execution). *)
Fixpoint pollingLoop (ticks : list Remote) (w : World) : World :=
  match ticks with
  | [] => w
  | net :: later => pollingLoop later (final_world (intervalCallback net w))
  end.

(** ** [generateImage] *)

(** What [generateImage] does before it awaits the API: the two guards
    and the release of the displayed result.  [false] is an early return,
    [true] goes on to the submission. *)
Definition generateImage_guard : Async bool :=
  f <- read form ;;
  if negb (form_valid f) then
    messageService_error form_invalid ;;
    ret false
  else
    cur <- read inProgress ;;
    match cur with
    | Some _ =>
        messageService_error generation_in_progress ;;
        ret false
    | None =>
        update (set_loading true) ;;
        shown <- read result ;;
        match shown with
        | Some r => URL_revokeObjectURL (Result.source r)
        | None => ret tt
        end ;;
        update (set_result None) ;;
        ret true
    end.

(** From [api.generateImage] to the end of the method. *)
Definition generateImage_submit (apiAnswer : ApiResponse JobInProgress.t)
  : Async unit :=
  options <- read (fun w => formAsOptions (form w)) ;;
  response <- api_generateImage apiAnswer options ;;
  match response with
  | ApiFailure e =>
      messageService_error (api_error (message e) (rc e)) ;;
      update (set_loading false)
  | ApiSuccess job =>
      database_addInProgressJob job ;;
      options <- read (fun w => formAsOptions (form w)) ;;
      database_storeJobMetadata
        {| JobMetadata.requestId := JobInProgress.id job;
           JobMetadata.height := GenerationOptions.height options;
           JobMetadata.width := GenerationOptions.width options |} ;;
      update (set_inProgress (Some job)) ;;
      update (set_loading false)
  end.

Definition generateImage (apiAnswer : ApiResponse JobInProgress.t)
  : Async unit :=
  go <- generateImage_guard ;;
  if go : bool then generateImage_submit apiAnswer else ret tt.

(** ** Runs of the component *)

(** What happens to the component between two idle moments: the timer
    fires, or the user submits the form.  Each action runs to its end
    before the next one starts. *)
Inductive Action : Type :=
  | Tick (net : Remote)
  | Submit (apiAnswer : ApiResponse JobInProgress.t).

Definition perform (a : Action) (w : World) : World :=
  match a with
  | Tick net => final_world (intervalCallback net w)
  | Submit apiAnswer => final_world (generateImage apiAnswer w)
  end.

Fixpoint run (actions : list Action) (w : World) : World :=
  match actions with
  | [] => w
  | a :: later => run later (perform a w)
  end.

(** ** Vocabulary of the statements *)

Definition record_all (evs : list Event) (w : World) : World :=
  mkWorld (loading w) (inProgress w) (result w) (requestStatus w) (form w)
          (database w) (urls w) (trace w ++ evs).

(** The downloads started by [push_requests], without the trace. *)
Fixpoint requests (net : Remote) (i : nat)
    (generations : list GenerationResult.t) : list (string * HttpOutcome) :=
  match generations with
  | [] => []
  | generation :: rest =>
      let url := GenerationResult.img generation in
      (url, httpGet net i url) :: requests net (S i) rest
  end.

Definition resolved (p : string * HttpOutcome) : bool :=
  match snd p with
  | HttpRejected => false
  | HttpResolved _ => true
  end.

Definition all_resolved (promises : list (string * HttpOutcome)) : bool :=
  forallb resolved promises.

Definition bodies (promises : list (string * HttpOutcome))
  : list (option Blob) :=
  omap (fun p => match snd p with
                 | HttpRejected => None
                 | HttpResolved body => Some body
                 end) promises.

Definition is_persisted_lookup (e : Event) : bool :=
  match e with DbGetJobsInProgress => true | _ => false end.

(** The calls [downloadImages] may make. *)
Definition is_download_call (e : Event) : bool :=
  match e with
  | HttpGet _ | ConsoleLog | UrlCreateObjectURL _
  | MessageError image_download_failed => true
  | _ => false
  end.

Definition throws_null_job {A} (o : Outcome A) : bool :=
  match o with
  | Thrown (Error msg) _ => String.eqb msg "Job cannot be null"
  | _ => false
  end.

(** Single job in flight: the persisted records are exactly the job held
    in memory, if any. *)
Definition consistent (w : World) : Prop :=
  DatabaseService.jobs (database w) = option_list (inProgress w).

(** The registry of object URLs only knows URLs it issued, and a revoked
    URL is not live. *)
Definition urls_wf (u : URL.t) : Prop :=
  (forall url, is_Some (URL.live u !! url) \/ url ∈ URL.revoked u ->
     exists n, (n < URL.issued u)%nat /\ url = URL.blob_url n)
  /\ (forall url, url ∈ URL.revoked u -> URL.live u !! url = None).

(** The displayed result, if any, holds a live object URL. *)
Definition no_dangling (w : World) : Prop :=
  urls_wf (urls w)
  /\ forall r, result w = Some r -> is_Some (URL.live (urls w) !! Result.source r).

(** The branches of one tick, each with the outcome it leads to. *)
Inductive tick_branch (net : Remote) (w : World) : Outcome unit -> Prop :=
  | tick_idle :
      inProgress w = None ->
      tick_branch net w (Returned tt w)
  | tick_status_failed job err :
      inProgress w = Some job ->
      checkGenerationStatus net = ApiFailure err ->
      tick_branch net w
        (Returned tt
           (record (MessageError (api_error (message err) (rc err)))
              (record (ApiCheckGenerationStatus job) w)))
  | tick_impossible job status :
      inProgress w = Some job ->
      checkGenerationStatus net = ApiSuccess status ->
      RequestStatusCheck.is_possible status = false ->
      tick_branch net w
        (Returned tt
           (record (MessageError generate_impossible)
              (set_inProgress None
                 (set_database
                    (DatabaseService.deleteInProgressJob job (database w))
                    (record (DbDeleteInProgressJob job)
                       (record (ApiCancelJob job)
                          (set_requestStatus (Some status)
                             (record (ApiCheckGenerationStatus job) w))))))))
  | tick_waiting job status :
      inProgress w = Some job ->
      checkGenerationStatus net = ApiSuccess status ->
      RequestStatusCheck.is_possible status = true ->
      RequestStatusCheck.done status = false ->
      tick_branch net w
        (Returned tt
           (set_requestStatus (Some status)
              (record (ApiCheckGenerationStatus job) w)))
  | tick_result_failed job status err :
      inProgress w = Some job ->
      checkGenerationStatus net = ApiSuccess status ->
      RequestStatusCheck.is_possible status = true ->
      RequestStatusCheck.done status = true ->
      getGeneratedImageResult net = ApiFailure err ->
      tick_branch net w
        (Returned tt
           (set_loading false
              (record (MessageError (api_error (message err) (rc err)))
                 (record (ApiGetGeneratedImageResult job)
                    (set_loading true
                       (set_requestStatus (Some status)
                          (record (ApiCheckGenerationStatus job) w)))))))
  | tick_done job status res :
      inProgress w = Some job ->
      checkGenerationStatus net = ApiSuccess status ->
      RequestStatusCheck.is_possible status = true ->
      RequestStatusCheck.done status = true ->
      getGeneratedImageResult net = ApiSuccess res ->
      tick_branch net w
        ((downloadImages net res
            (DatabaseService.getJobMetadata job (database w)) ;;
          database_deleteInProgressJob job ;;
          update (set_inProgress None) ;;
          update (set_loading false))
         (record (DbGetJobMetadata job)
            (record (ApiGetGeneratedImageResult job)
               (set_loading true
                  (set_requestStatus (Some status)
                     (record (ApiCheckGenerationStatus job) w)))))).

(** ** A concrete session *)

Module Sample.
Definition job : JobInProgress.t := JobInProgress.mk "req-1" "kudos:10".

Definition metadata : JobMetadata.t := JobMetadata.mk "req-1" 512 768.

Definition filled : Form.t :=
  Form.mk (Some "a cat") None (Some k_dpmpp_sde) (Some 7%Q) None
          (Some 512) (Some 768) (Some 30%Q) (Some "sdxl").

(* the width is not a multiple of 64 *)
Definition misfilled : Form.t :=
  Form.mk (Some "a cat") None (Some k_dpmpp_sde) (Some 7%Q) None
          (Some 512) (Some 700) (Some 30%Q) (Some "sdxl").

Definition shown : Result.t :=
  Result.mk 768 512 "blob:0" "w-0" "old worker" "sdxl" "7" "g-0" false 9%Q.

(* nothing submitted, nothing displayed *)
Definition idle : World :=
  mkWorld false None None None filled
          (DatabaseService.mk [] ∅) (URL.mk 0 ∅ ∅) [].

(* nothing submitted, the result of an earlier job displayed *)
Definition showing : World :=
  mkWorld false None (Some shown) None filled
          (DatabaseService.mk [] ∅)
          (URL.mk 1 {[ "blob:0" := [Byte.x89; Byte.x50] ]} ∅) [].

(* a job submitted and tracked *)
Definition polling : World :=
  mkWorld false (Some job) None None filled
          (DatabaseService.mk [job] {[ "req-1" := metadata ]})
          (URL.mk 0 ∅ ∅) [].

Definition first : GenerationResult.t :=
  GenerationResult.mk "https://img.example/1.webp" "w-1" "worker one"
                      "sdxl" "42" "g-1" false.

Definition second : GenerationResult.t :=
  GenerationResult.mk "https://img.example/2.webp" "w-2" "worker two"
                      "sd15" "43" "g-2" true.

Definition full : RequestStatusFull.t :=
  RequestStatusFull.mk [first; second] 10%Q.

Definition single : RequestStatusFull.t :=
  RequestStatusFull.mk [first] 10%Q.

Definition image : Blob := [Byte.x52; Byte.x49; Byte.x46; Byte.x46].

Definition unavailable : ErrorResponse :=
  mkErrorResponse "Service unavailable" "503".

Definition waiting : RequestStatusCheck.t := RequestStatusCheck.mk true false 5.
Definition finished : RequestStatusCheck.t := RequestStatusCheck.mk true true 0.
Definition impossible : RequestStatusCheck.t :=
  RequestStatusCheck.mk false false 0.

Definition all_fine (i : nat) (url : string) : HttpOutcome :=
  HttpResolved (Some image).

Definition all_rejected (i : nat) (url : string) : HttpOutcome :=
  HttpRejected.

Definition first_empty (i : nat) (url : string) : HttpOutcome :=
  match i with
  | O => HttpResolved None
  | S _ => HttpResolved (Some image)
  end.

Definition net_waiting : Remote :=
  mkRemote (ApiSuccess waiting) (ApiFailure unavailable) all_rejected.

Definition net_impossible : Remote :=
  mkRemote (ApiSuccess impossible) (ApiFailure unavailable) all_rejected.

Definition net_done : Remote :=
  mkRemote (ApiSuccess finished) (ApiSuccess full) all_fine.

Definition net_result_unavailable : Remote :=
  mkRemote (ApiSuccess finished) (ApiFailure unavailable) all_fine.

Definition net_download_rejected : Remote :=
  mkRemote (ApiSuccess finished) (ApiSuccess single) all_rejected.

Definition net_empty_body : Remote :=
  mkRemote (ApiSuccess finished) (ApiSuccess full) first_empty.
End Sample.

(** ** The page around the polling loop *)

(** [ngOnInit] of the component up to the subscription of the interval,
    and the handler of [form.valueChanges].  They use three more signals
    and collaborators than the polling loop: the cost estimate, the list
    of models and the persisted generation options. *)

(** [types/horde/worker-type] is only referenced through
    [WorkerType.image]. *)
Inductive WorkerType : Type :=
  | image
  | other_worker_type (name : string).

(** An entry of the answer of [api.getModels()]: the two fields read. *)
Module ActiveModel.
Record t : Type := mk {
  name : string;
  type : WorkerType;
}.
End ActiveModel.

Definition is_image_model (m : ActiveModel.t) : bool :=
  match ActiveModel.type m with
  | image => true
  | other_worker_type _ => false
  end.

(** The calls of [ngOnInit] and of the [valueChanges] handler that the
    polling loop does not make. *)
Inductive PageEvent : Type :=
  | DbGetGenerationOptions
  | DbStoreGenerationOptions (options : GenerationOptions.t)
  | ApiGetModels
  | MessageModelsFetchingFailed.

Record Page : Type := mkPage {
  component : World;
  isBrowser : bool;
  kudosCost : Q;
  availableModels : list string;
  (* Modelled from the spec: [getGenerationOptions] and
     [storeGenerationOptions] of DatabaseService, the generation options
     persisted between sessions *)
  generationOptions : GenerationOptions.t;
  (* what [ngOnInit] has subscribed to so far *)
  valueChanges_subscribed : bool;
  interval_subscribed : bool;
  page_trace : list PageEvent;
}.

Definition on_component (f : World -> World) (p : Page) : Page :=
  mkPage (f (component p)) (isBrowser p) (kudosCost p) (availableModels p)
         (generationOptions p) (valueChanges_subscribed p)
         (interval_subscribed p) (page_trace p).

Definition set_kudosCost (c : Q) (p : Page) : Page :=
  mkPage (component p) (isBrowser p) c (availableModels p)
         (generationOptions p) (valueChanges_subscribed p)
         (interval_subscribed p) (page_trace p).

Definition set_availableModels (l : list string) (p : Page) : Page :=
  mkPage (component p) (isBrowser p) (kudosCost p) l
         (generationOptions p) (valueChanges_subscribed p)
         (interval_subscribed p) (page_trace p).

Definition set_generationOptions (o : GenerationOptions.t) (p : Page) : Page :=
  mkPage (component p) (isBrowser p) (kudosCost p) (availableModels p)
         o (valueChanges_subscribed p) (interval_subscribed p) (page_trace p).

Definition subscribe_valueChanges (p : Page) : Page :=
  mkPage (component p) (isBrowser p) (kudosCost p) (availableModels p)
         (generationOptions p) true (interval_subscribed p) (page_trace p).

Definition subscribe_interval (p : Page) : Page :=
  mkPage (component p) (isBrowser p) (kudosCost p) (availableModels p)
         (generationOptions p) (valueChanges_subscribed p) true (page_trace p).

Definition page_record (e : PageEvent) (p : Page) : Page :=
  mkPage (component p) (isBrowser p) (kudosCost p) (availableModels p)
         (generationOptions p) (valueChanges_subscribed p)
         (interval_subscribed p) (page_trace p ++ [e]).

Definition set_form (f : Form.t) (w : World) : World :=
  mkWorld (loading w) (inProgress w) (result w) (requestStatus w) f
          (database w) (urls w) (trace w).

(** [form.patchValue(options)]: every control whose name is a key of
    [options] takes its value; [karras] names no control. *)
Definition patchValue (o : GenerationOptions.t) (f : Form.t) : Form.t :=
  {| Form.prompt := Some (GenerationOptions.prompt o);
     Form.negativePrompt := GenerationOptions.negativePrompt o;
     Form.sampler := Some (GenerationOptions.sampler o);
     Form.cfgScale := Some (GenerationOptions.cfgScale o);
     Form.denoisingStrength := Some (GenerationOptions.denoisingStrength o);
     Form.height := Some (GenerationOptions.height o);
     Form.width := Some (GenerationOptions.width o);
     Form.steps := Some (GenerationOptions.steps o);
     Form.model := Some (GenerationOptions.model o) |}.

Inductive PageOutcome : Type :=
  | PageReturned (p : Page)
  | PageThrown (e : Exception) (p : Page).

Definition final_page (o : PageOutcome) : Page :=
  match o with
  | PageReturned p => p
  | PageThrown _ p => p
  end.

Section Page.

(** [costCalculator.calculate] (services/kudos-cost-calculator is not part
    of the inspected sources). *)
Variable calculate : GenerationOptions.t -> Q.

(** [ngOnInit] up to and including [interval(1_000).subscribe(...)];
    [getModels] is the answer of the API client. *)
Definition ngOnInit (getModels : ApiResponse (list ActiveModel.t)) (p : Page)
  : PageOutcome :=
  if negb (isBrowser p) then PageReturned p
  else
    (* this.form.patchValue(await this.database.getGenerationOptions()) *)
    let p := page_record DbGetGenerationOptions p in
    let p := on_component
               (fun w => set_form (patchValue (generationOptions p) (form w)) w)
               p in
    (* this.inProgress.set((await this.database.getJobsInProgress())[0] ?? null) *)
    let p := on_component (fun w => final_world (restoreInProgress w)) p in
    (* this.kudosCost.set(this.costCalculator.calculate(...)) *)
    let p := page_record DbGetGenerationOptions p in
    let p := set_kudosCost (calculate (generationOptions p)) p in
    let p := subscribe_valueChanges p in
    let p := page_record ApiGetModels p in
    match getModels with
    | ApiFailure _ =>
        PageThrown (Error "Failed fetching list of models")
                   (page_record MessageModelsFetchingFailed p)
    | ApiSuccess models =>
        let p := set_availableModels
                   (map ActiveModel.name (List.filter is_image_model models))
                   p in
        let p := on_component (set_loading false) p in
        PageReturned (subscribe_interval p)
    end.

(** The user (or anything else) changes the value of the form to [f]; the
    handler subscribed to [form.valueChanges], if any, runs. *)
Definition valueChanges (f : Form.t) (p : Page) : Page :=
  let p := on_component (set_form f) p in
  if valueChanges_subscribed p then
    (* await this.database.storeGenerationOptions(this.formAsOptions) *)
    let options := formAsOptions (form (component p)) in
    let p := page_record (DbStoreGenerationOptions options)
                         (set_generationOptions options p) in
    (* this.kudosCost.set(this.costCalculator.calculate(...)) *)
    let p := page_record DbGetGenerationOptions p in
    set_kudosCost (calculate (generationOptions p)) p
  else p.

(** What can happen to the page once it is there. *)
Inductive PageAction : Type :=
  | TimerFires (net : Remote)
  | UserSubmits (apiAnswer : ApiResponse JobInProgress.t)
  | UserEdits (f : Form.t).

Definition page_perform (a : PageAction) (p : Page) : Page :=
  match a with
  | TimerFires net =>
      if interval_subscribed p then on_component (perform (Tick net)) p
      else p
  | UserSubmits apiAnswer => on_component (perform (Submit apiAnswer)) p
  | UserEdits f => valueChanges f p
  end.

Fixpoint page_run (actions : list PageAction) (p : Page) : Page :=
  match actions with
  | [] => p
  | a :: later => page_run later (page_perform a p)
  end.


End Page.

(** ** The application shell *)

(** [AppComponent.ngOnInit]: the check for a new version of the
    application and the check of the stored API key. *)
Module AppComponent.

(** The [type] of a [VersionEvent] of the service worker. *)
Inductive VersionEvent : Type :=
  | VERSION_DETECTED
  | VERSION_INSTALLATION_FAILED
  | VERSION_READY
  | NO_NEW_VERSION_DETECTED.

Record t : Type := mk {
  updateChecked : bool;
  (* the handler of [updates.versionUpdates] is subscribed *)
  subscribed : bool;
  (* toasts shown by [toastr.info] *)
  toasts : nat;
  (* [authManager.apiKey] and [authManager.anonymousApiKey] *)
  apiKey : string;
  anonymousApiKey : string;
  (* calls of [aiHorde.currentUser()] *)
  currentUser_calls : nat;
}.

(** The handler subscribed to [updates.versionUpdates]. *)
Definition versionUpdates (event : VersionEvent) (s : t) : t :=
  if negb (subscribed s) then s
  else if updateChecked s then s
  else match event with
       | VERSION_READY =>
           mk (updateChecked s) (subscribed s) (S (toasts s)) (apiKey s)
              (anonymousApiKey s) (currentUser_calls s)
       | _ => s
       end.

Definition deliver (events : list VersionEvent) (s : t) : t :=
  fold_left (fun s event => versionUpdates event s) events s.

(** What the outside answers during [ngOnInit]. *)
Record Startup : Type := mkStartup {
  isEnabled : bool;
  (* the version events that arrive while [checkForUpdate()] is awaited *)
  during_check : list VersionEvent;
  (* [checkForUpdate()] resolves (or its promise rejects) *)
  checkForUpdate_resolves : bool;
  (* [success] of the answer of [aiHorde.currentUser()] *)
  currentUser_success : bool;
}.

(** The second half of [ngOnInit]: the check of the API key. *)
Definition check_apiKey (env : Startup) (s : t) : t :=
  if negb (String.eqb (apiKey s) (anonymousApiKey s)) then
    let s := mk (updateChecked s) (subscribed s) (toasts s) (apiKey s)
                (anonymousApiKey s) (S (currentUser_calls s)) in
    if negb (currentUser_success env) then
      mk (updateChecked s) (subscribed s) (toasts s) (anonymousApiKey s)
         (anonymousApiKey s) (currentUser_calls s)
    else s
  else s.

(** [ngOnInit]: [true] when it runs to its end, [false] when the awaited
    [checkForUpdate()] rejects. *)
Definition ngOnInit (env : Startup) (s : t) : bool * t :=
  if isEnabled env then
    let s := mk (updateChecked s) true (toasts s) (apiKey s)
                (anonymousApiKey s) (currentUser_calls s) in
    let s := deliver (during_check env) s in
    if checkForUpdate_resolves env then
      let s := mk true (subscribed s) (toasts s) (apiKey s)
                  (anonymousApiKey s) (currentUser_calls s) in
      (true, check_apiKey env s)
    else (false, s)
  else (true, check_apiKey env s).

Definition is_ready (event : VersionEvent) : bool :=
  match event with
  | VERSION_READY => true
  | _ => false
  end.

End AppComponent.

(** ** Kinds of ticks *)

(** What the remote side answers in a tick, as far as the branch taken by
    the callback on a held job goes. *)
Definition status_fails (net : Remote) : bool :=
  match checkGenerationStatus net with
  | ApiFailure _ => true
  | ApiSuccess _ => false
  end.

Definition still_waiting (net : Remote) : bool :=
  match checkGenerationStatus net with
  | ApiFailure _ => false
  | ApiSuccess status =>
      RequestStatusCheck.is_possible status
      && negb (RequestStatusCheck.done status)
  end.

Definition says_done (net : Remote) : bool :=
  match checkGenerationStatus net with
  | ApiFailure _ => false
  | ApiSuccess status =>
      RequestStatusCheck.is_possible status && RequestStatusCheck.done status
  end.

Definition result_fetch_fails (net : Remote) : bool :=
  says_done net
  && match getGeneratedImageResult net with
     | ApiFailure _ => true
     | ApiSuccess _ => false
     end.

(** The result arrives, but it lists no generation or one of its downloads
    is rejected. *)
Definition download_fails (net : Remote) : bool :=
  says_done net
  && match getGeneratedImageResult net with
     | ApiFailure _ => false
     | ApiSuccess res =>
         match RequestStatusFull.generations res with
         | [] => true
         | generations => negb (all_resolved (requests net 0 generations))
         end
     end.

(** A tick that settles nothing: the status check fails, or the job is
    still possible and not done, or the result fetch fails. *)
Definition inconclusive (net : Remote) : bool :=
  status_fails net || still_waiting net || result_fetch_fails net.

Definition is_download (e : Event) : bool :=
  match e with HttpGet _ => true | _ => false end.

Definition is_submission (e : Event) : bool :=
  match e with
  | ApiGenerateImage _ | DbAddInProgressJob _ | DbStoreJobMetadata _ => true
  | _ => false
  end.

(** ** More of the concrete session *)

Module Scenario.
Definition net_status_down : Remote :=
  mkRemote (ApiFailure Sample.unavailable) (ApiFailure Sample.unavailable)
           Sample.all_rejected.

Definition nothing_generated : RequestStatusFull.t :=
  RequestStatusFull.mk [] 10%Q.

Definition net_nothing_generated : Remote :=
  mkRemote (ApiSuccess Sample.finished) (ApiSuccess nothing_generated)
           Sample.all_fine.

Definition second_rejected (i : nat) (url : string) : HttpOutcome :=
  match i with
  | O => HttpResolved (Some Sample.image)
  | S _ => HttpRejected
  end.

Definition net_second_rejected : Remote :=
  mkRemote (ApiSuccess Sample.finished) (ApiSuccess Sample.full)
           second_rejected.

(* the job is tracked, its metadata is not *)
Definition polling_without_metadata : World :=
  mkWorld false (Some Sample.job) None None Sample.filled
          (DatabaseService.mk [Sample.job] ∅) (URL.mk 0 ∅ ∅) [].

Definition models : list ActiveModel.t :=
  [ActiveModel.mk "sdxl" image;
   ActiveModel.mk "llama" (other_worker_type "text");
   ActiveModel.mk "sd15" image].

Definition calculate (o : GenerationOptions.t) : Q :=
  GenerationOptions.steps o * (1 # 10).

Definition stored : GenerationOptions.t := formAsOptions Sample.filled.

Definition blank : Form.t :=
  Form.mk (Some "") None (Some k_dpmpp_sde) (Some 0%Q) (Some 0%Q)
          (Some 0) (Some 0) (Some 0%Q) (Some "").

(* the component as constructed, in the browser, with a job and options
   persisted by an earlier session *)
Definition reloaded : Page :=
  mkPage (mkWorld true None None None blank
            (DatabaseService.mk [Sample.job] {[ "req-1" := Sample.metadata ]})
            (URL.mk 0 ∅ ∅) [])
         true 0%Q [] stored false false [].

(* the page of an idle component after [ngOnInit] *)
Definition ready : Page :=
  mkPage Sample.idle true (calculate stored) ["sdxl"; "sd15"] stored
         true true [].

Definition edited : Form.t :=
  Form.mk (Some "a dog") None (Some k_dpmpp_sde) (Some 7%Q) None
          (Some 1024) (Some 1024) (Some 30%Q) (Some "sdxl").

(* thirty and a half steps: within the bounds, not an integer *)
Definition fractional : Form.t :=
  Form.mk (Some "a cat") None (Some k_dpmpp_sde) (Some 7%Q) None
          (Some 512) (Some 768) (Some (61 # 2)%Q) (Some "sdxl").

Definition idle_fractional : World :=
  mkWorld false None None None fractional
          (DatabaseService.mk [] ∅) (URL.mk 0 ∅ ∅) [].

Definition idle_misfilled : World :=
  mkWorld false None None None Sample.misfilled
          (DatabaseService.mk [] ∅) (URL.mk 0 ∅ ∅) [].

Definition shell : AppComponent.t :=
  AppComponent.mk false false 0 "my-key" "0000000000" 0.

Definition startup : AppComponent.Startup :=
  AppComponent.mkStartup true
    [AppComponent.VERSION_DETECTED; AppComponent.VERSION_READY]
    true false.
End Scenario.

(** ** Proof tools *)

Ltac unfold_calls :=
  unfold api_checkGenerationStatus, api_cancelJob,
    api_getGeneratedImageResult, api_generateImage, messageService_error,
    database_getJobsInProgress, database_addInProgressJob,
    database_deleteInProgressJob, database_getJobMetadata,
    database_storeJobMetadata, URL_createObjectURL, URL_revokeObjectURL,
    console_log, inProgress_nonnull.

Ltac unfold_monad := unfold bind, ret, read, update, throw.

(** Runs a method as far as the facts [H] about the signals decide it. *)
Tactic Notation "run_method" "using" constr(H) :=
  unfold_calls; unfold_monad; cbn; repeat (progress (rewrite ?H; cbn)).

(** * Properties *)

(** ** Traces *)

Lemma calls_since_trace (w w' : World) (evs : list Event) :
  trace w' = trace w ++ evs -> calls_since w w' = evs.
Proof.
  intros E. unfold calls_since. rewrite E. apply drop_app_length.
Qed.

(** Replaces [calls_since w w'] by the calls that [w'] visibly adds. *)
Ltac reduce_calls :=
  match goal with
  | |- context [calls_since ?w ?w'] =>
      let H := fresh "Htrace" in
      eassert (H : trace w' = trace w ++ _)
        by (cbn; rewrite <- ?app_assoc; reflexivity);
      rewrite (calls_since_trace _ _ _ H); clear H
  end.

Lemma calls_since_record_all (w : World) (evs : list Event) :
  calls_since w (record_all evs w) = evs.
Proof. apply calls_since_trace. reflexivity. Qed.

Lemma record_all_nil (w : World) : record_all [] w = w.
Proof. destruct w. unfold record_all. cbn. by rewrite app_nil_r. Qed.

Lemma record_record_all (e : Event) (evs : list Event) (w : World) :
  record_all evs (record e w) = record_all (e :: evs) w.
Proof. unfold record_all, record. cbn. by rewrite <- app_assoc. Qed.

Lemma count_app (p : Event -> bool) (l1 l2 : list Event) :
  count p (l1 ++ l2) = (count p l1 + count p l2)%nat.
Proof. unfold count. by rewrite List.filter_app, length_app. Qed.

(** Download calls are neither lookups of the persisted jobs nor calls of
    the API client. *)
Lemma download_calls_count (evs : list Event) :
  forallb is_download_call evs = true ->
  count is_persisted_lookup evs = 0%nat
  /\ count is_cancellation evs = 0%nat
  /\ count is_result_fetch evs = 0%nat
  /\ count is_status_check evs = 0%nat
  /\ count is_database_write evs = 0%nat.
Proof.
  induction evs as [|e evs IH]; [by repeat split|]. cbn.
  intros [He Hevs]%andb_prop. specialize (IH Hevs).
  unfold count in *. destruct e; try discriminate; cbn; exact IH.
Qed.

(** ** Downloads *)

Lemma push_requests_run (net : Remote)
    (generations : list GenerationResult.t) (i : nat) (w : World) :
  push_requests net i generations w =
    Returned (requests net i generations)
      (record_all (map (fun g => HttpGet (GenerationResult.img g)) generations) w).
Proof.
  revert i w. induction generations as [|g rest IH]; intros i w; cbn.
  - unfold ret. by rewrite record_all_nil.
  - unfold bind, update, ret. cbn. rewrite IH.
    by rewrite record_record_all.
Qed.

Lemma promise_all_resolved (promises : list (string * HttpOutcome)) :
  all_resolved promises = true ->
  promise_all promises = inr (bodies promises).
Proof.
  induction promises as [|[url [|body]] rest IH]; cbn; intros H.
  - reflexivity.
  - discriminate.
  - unfold bodies in *. cbn. by rewrite (IH H).
Qed.

Lemma promise_all_rejected (promises : list (string * HttpOutcome))
    (e : Exception) :
  promise_all promises = inl e ->
  all_resolved promises = false /\ exists url, e = HttpErrorResponse url.
Proof.
  induction promises as [|[url [|body]] rest IH]; cbn; intros H.
  - discriminate.
  - split; [reflexivity|]. exists url. congruence.
  - destruct (promise_all rest) as [e'|bs]; [|discriminate].
    destruct IH as [Hr Hu]; [congruence|]. split; [exact Hr|].
    destruct Hu as [u ->]. exists u. congruence.
Qed.

Lemma all_resolved_cases (promises : list (string * HttpOutcome)) :
  (all_resolved promises = true /\ promise_all promises = inr (bodies promises))
  \/ (all_resolved promises = false
      /\ exists url, promise_all promises = inl (HttpErrorResponse url)).
Proof.
  destruct (promise_all promises) as [e|bs] eqn:E.
  - right. destruct (promise_all_rejected _ _ E) as [Hr [u ->]]. eauto.
  - left. destruct (all_resolved promises) eqn:Hr.
    + rewrite (promise_all_resolved _ Hr) in E. by inversion E.
    + exfalso.
      assert (H : forall ps, all_resolved ps = false ->
                exists e, promise_all ps = inl e).
      { clear. induction ps as [|[url [|body]] rest IH]; cbn; intros H.
        - discriminate.
        - eauto.
        - destruct (IH H) as [e ->]. eauto. }
      destruct (H _ Hr) as [e He]. congruence.
Qed.

Lemma requests_first_resolved (net : Remote) (first : GenerationResult.t)
    (rest : list GenerationResult.t) (body : option Blob) :
  httpGet net 0 (GenerationResult.img first) = HttpResolved body ->
  all_resolved (requests net 1 rest) = true ->
  promise_all (requests net 0 (first :: rest))
  = inr (body :: bodies (requests net 1 rest)).
Proof.
  intros Hfirst Hrest. cbn. rewrite Hfirst.
  by rewrite (promise_all_resolved _ Hrest).
Qed.

(** [downloadImages] only touches the result, the object URLs and the
    trace, makes download calls only, and never throws the null-job error. *)
Lemma downloadImages_frame (net : Remote) (res : RequestStatusFull.t)
    (metadata : option JobMetadata.t) (w : World) :
  let o := downloadImages net res metadata w in
  loading (final_world o) = loading w
  /\ inProgress (final_world o) = inProgress w
  /\ database (final_world o) = database w
  /\ form (final_world o) = form w
  /\ requestStatus (final_world o) = requestStatus w
  /\ (exists evs, trace (final_world o) = trace w ++ evs
                  /\ forallb is_download_call evs = true)
  /\ throws_null_job o = false.
Proof.
  cbn. unfold downloadImages, bind. rewrite push_requests_run.
  set (gets := map _ _).
  assert (Hgets : forallb is_download_call gets = true).
  { subst gets. induction (RequestStatusFull.generations res); cbn; auto. }
  unfold await_all.
  destruct (promise_all _) as [e|[|[image|] bs]] eqn:E; cbn.
  - (* a download is rejected *)
    destruct (promise_all_rejected _ _ E) as [_ [url ->]].
    repeat split; try reflexivity. eexists; split; [reflexivity | exact Hgets].
  - (* no response at all *)
    repeat split; try reflexivity. eexists; split; [reflexivity | exact Hgets].
  - (* a non-empty first body *)
    unfold_calls. unfold_monad. cbn.
    destruct metadata as [md|], (head (RequestStatusFull.generations res));
      cbn; repeat split; try reflexivity;
      (eexists; split; [rewrite <- ?app_assoc; reflexivity |];
       rewrite forallb_app, Hgets; reflexivity).
  - (* an empty first body *)
    repeat split; try reflexivity.
    eexists; split; [rewrite <- ?app_assoc; reflexivity |].
    rewrite forallb_app, Hgets; reflexivity.
Qed.

(** All downloads resolve and the first body is [null]: the download error
    is reported and the result is left alone. *)
Lemma downloadImages_empty_body (net : Remote) (res : RequestStatusFull.t)
    (metadata : option JobMetadata.t) (w : World)
    (first : GenerationResult.t) (rest : list GenerationResult.t) :
  RequestStatusFull.generations res = first :: rest ->
  httpGet net 0 (GenerationResult.img first) = HttpResolved None ->
  all_resolved (requests net 1 rest) = true ->
  downloadImages net res metadata w =
    Returned tt
      (record (MessageError image_download_failed)
         (record_all
            (map (fun g => HttpGet (GenerationResult.img g))
                 (RequestStatusFull.generations res)) w)).
Proof.
  intros Hgens Hfirst Hrest.
  destruct res as [generations kudos]. cbn in Hgens. subst generations.
  unfold downloadImages, bind. rewrite push_requests_run.
  unfold await_all. cbn [RequestStatusFull.generations].
  rewrite (requests_first_resolved net first rest None Hfirst Hrest).
  reflexivity.
Qed.

(** All downloads resolve and the first body is an image. *)
Lemma downloadImages_image (net : Remote) (res : RequestStatusFull.t)
    (md : JobMetadata.t) (w : World)
    (first : GenerationResult.t) (rest : list GenerationResult.t)
    (image : Blob) :
  RequestStatusFull.generations res = first :: rest ->
  httpGet net 0 (GenerationResult.img first) = HttpResolved (Some image) ->
  all_resolved (requests net 1 rest) = true ->
  downloadImages net res (Some md) w =
    Returned tt
      (set_result
         (Some {| Result.source := URL.blob_url (URL.issued (urls w));
                  Result.width := JobMetadata.width md;
                  Result.height := JobMetadata.height md;
                  Result.workerId := GenerationResult.worker_id first;
                  Result.model := GenerationResult.model first;
                  Result.censored := GenerationResult.censored first;
                  Result.workerName := GenerationResult.worker_name first;
                  Result.seed := GenerationResult.seed first;
                  Result.id := GenerationResult.id first;
                  Result.kudos := RequestStatusFull.kudos res |})
         (record (UrlCreateObjectURL (URL.blob_url (URL.issued (urls w))))
            (set_urls (snd (URL.createObjectURL image (urls w)))
               (record ConsoleLog
                  (record_all
                     (map (fun g => HttpGet (GenerationResult.img g))
                          (RequestStatusFull.generations res)) w))))).
Proof.
  intros Hgens Hfirst Hrest.
  destruct res as [generations kudos]. cbn in Hgens. subst generations.
  unfold downloadImages, bind. rewrite push_requests_run.
  unfold await_all. cbn [RequestStatusFull.generations].
  rewrite (requests_first_resolved net first rest _ Hfirst Hrest).
  reflexivity.
Qed.

(** A download is rejected: the rejection is thrown into the caller after
    all requests were started, and nothing else happened. *)
Lemma downloadImages_rejected (net : Remote) (res : RequestStatusFull.t)
    (metadata : option JobMetadata.t) (w : World) :
  all_resolved (requests net 0 (RequestStatusFull.generations res)) = false ->
  exists url,
    downloadImages net res metadata w =
      Thrown (HttpErrorResponse url)
        (record_all
           (map (fun g => HttpGet (GenerationResult.img g))
                (RequestStatusFull.generations res)) w).
Proof.
  intros Hrejected.
  destruct (all_resolved_cases
              (requests net 0 (RequestStatusFull.generations res)))
    as [[Hres _]|[_ [url Hall]]]; [congruence|].
  exists url. unfold downloadImages, bind. rewrite push_requests_run.
  unfold await_all. rewrite Hall. reflexivity.
Qed.

(** C6 (the code falls short of it).  When a download is rejected,
    [downloadImages] throws the rejection into its caller: the result is
    not assigned, but nothing is handed to the message service either.
    Only the empty body is reported ([downloadImages_empty_body]). *)
Theorem rejected_download_goes_unreported
    (net : Remote) (res : RequestStatusFull.t)
    (metadata : option JobMetadata.t) (w : World) :
  all_resolved (requests net 0 (RequestStatusFull.generations res)) = false ->
  exists url w',
    downloadImages net res metadata w = Thrown (HttpErrorResponse url) w'
    /\ count is_message (calls_since w w') = 0%nat
    /\ result w' = result w.
Proof.
  intros Hrejected.
  destruct (downloadImages_rejected net res metadata w Hrejected)
    as [url Hrun].
  exists url. eexists. split; [exact Hrun|]. split; [|reflexivity].
  rewrite calls_since_record_all.
  generalize (RequestStatusFull.generations res) as generations.
  induction generations as [|g generations IH]; [reflexivity | exact IH].
Qed.

Lemma rejected_download_witness :
  all_resolved
    (requests Sample.net_download_rejected 0
       (RequestStatusFull.generations Sample.single)) = false
  /\ exists url w',
       downloadImages Sample.net_download_rejected Sample.single
         (Some Sample.metadata) Sample.polling
       = Thrown (HttpErrorResponse url) w'
       /\ count is_message (calls_since Sample.polling w') = 0%nat
       /\ result w' = result Sample.polling.
Proof.
  split; [reflexivity|].
  apply (rejected_download_goes_unreported Sample.net_download_rejected
           Sample.single (Some Sample.metadata) Sample.polling).
  reflexivity.
Defined.

(** C7.  On a generation list [first :: rest] with cached metadata, when
    the downloads resolve and the first body is an image, [downloadImages]
    returns with a result whose width and height are the metadata's, whose
    worker id, worker name, model, seed, id and censored flag are those of
    [first], whose kudos is the server response's and whose source is the
    object URL just created.  The same result comes out for any other
    generations after [first] (and any other image bytes). *)
Theorem result_is_built_from_first_generation
    (net : Remote) (res : RequestStatusFull.t) (md : JobMetadata.t)
    (w : World) (first : GenerationResult.t)
    (rest : list GenerationResult.t) (image : Blob) :
  RequestStatusFull.generations res = first :: rest ->
  httpGet net 0 (GenerationResult.img first) = HttpResolved (Some image) ->
  all_resolved (requests net 1 rest) = true ->
  exists w',
    downloadImages net res (Some md) w = Returned tt w'
    /\ result w' =
         Some {| Result.width := JobMetadata.width md;
                 Result.height := JobMetadata.height md;
                 Result.source := URL.blob_url (URL.issued (urls w));
                 Result.workerId := GenerationResult.worker_id first;
                 Result.workerName := GenerationResult.worker_name first;
                 Result.model := GenerationResult.model first;
                 Result.seed := GenerationResult.seed first;
                 Result.id := GenerationResult.id first;
                 Result.censored := GenerationResult.censored first;
                 Result.kudos := RequestStatusFull.kudos res |}
    /\ URL.live (urls w') !! URL.blob_url (URL.issued (urls w)) = Some image
    /\ forall (net' : Remote) (rest' : list GenerationResult.t) (image' : Blob),
         httpGet net' 0 (GenerationResult.img first)
           = HttpResolved (Some image') ->
         all_resolved (requests net' 1 rest') = true ->
         result (final_world
                   (downloadImages net'
                      (RequestStatusFull.mk (first :: rest')
                         (RequestStatusFull.kudos res))
                      (Some md) w))
         = result w'.
Proof.
  intros Hgens Hfirst Hrest.
  eexists. split; [exact (downloadImages_image _ _ _ _ _ _ _ Hgens Hfirst Hrest)|].
  split; [reflexivity|]. split.
  - cbn. apply lookup_insert_eq.
  - intros net' rest' image' Hfirst' Hrest'.
    rewrite (downloadImages_image net'
               (RequestStatusFull.mk (first :: rest')
                  (RequestStatusFull.kudos res))
               md w first rest' image' eq_refl Hfirst' Hrest').
    reflexivity.
Qed.

Lemma result_from_first_generation_witness :
  RequestStatusFull.generations Sample.full = Sample.first :: [Sample.second]
  /\ httpGet Sample.net_done 0 (GenerationResult.img Sample.first)
     = HttpResolved (Some Sample.image)
  /\ all_resolved (requests Sample.net_done 1 [Sample.second]) = true
  /\ exists w',
       downloadImages Sample.net_done Sample.full (Some Sample.metadata)
         Sample.polling = Returned tt w'
       /\ result w' =
            Some (Result.mk 768 512 "blob:0" "w-1" "worker one" "sdxl" "42"
                            "g-1" false 10%Q).
Proof.
  do 3 (split; [reflexivity|]).
  destruct (result_is_built_from_first_generation Sample.net_done
              Sample.full Sample.metadata Sample.polling Sample.first
              [Sample.second] Sample.image eq_refl eq_refl eq_refl)
    as (w' & Hrun & Hresult & _).
  exists w'. split; [exact Hrun|]. exact Hresult.
Defined.

Arguments downloadImages : simpl never.

(** ** The branches of a tick *)

Lemma idle_tick_run (net : Remote) (w : World) :
  inProgress w = None -> intervalCallback net w = Returned tt w.
Proof.
  intros Hidle. unfold intervalCallback. run_method using Hidle. reflexivity.
Qed.

Lemma impossible_tick_run (net : Remote) (w : World) (job : JobInProgress.t)
    (status : RequestStatusCheck.t) :
  inProgress w = Some job ->
  checkGenerationStatus net = ApiSuccess status ->
  RequestStatusCheck.is_possible status = false ->
  intervalCallback net w =
    Returned tt
      (record (MessageError generate_impossible)
         (set_inProgress None
            (set_database
               (DatabaseService.deleteInProgressJob job (database w))
               (record (DbDeleteInProgressJob job)
                  (record (ApiCancelJob job)
                     (set_requestStatus (Some status)
                        (record (ApiCheckGenerationStatus job) w))))))).
Proof.
  intros Hjob Hstatus Himpossible.
  unfold intervalCallback. run_method using Hjob.
  rewrite Hstatus. cbn. rewrite Himpossible.
  run_method using Hjob. reflexivity.
Qed.

Lemma waiting_tick_run (net : Remote) (w : World) (job : JobInProgress.t)
    (status : RequestStatusCheck.t) :
  inProgress w = Some job ->
  checkGenerationStatus net = ApiSuccess status ->
  RequestStatusCheck.is_possible status = true ->
  RequestStatusCheck.done status = false ->
  intervalCallback net w =
    Returned tt
      (set_requestStatus (Some status)
         (record (ApiCheckGenerationStatus job) w)).
Proof.
  intros Hjob Hstatus Hpossible Hdone.
  unfold intervalCallback. run_method using Hjob.
  rewrite Hstatus. cbn. rewrite Hpossible, Hdone. reflexivity.
Qed.

(** The done branch up to the download: status check, busy flag, result
    fetch, metadata lookup; then the download, and the clean-up on the job
    that is still held in memory. *)
Lemma done_tick_run (net : Remote) (w : World) (job : JobInProgress.t)
    (status : RequestStatusCheck.t) (res : RequestStatusFull.t) :
  inProgress w = Some job ->
  checkGenerationStatus net = ApiSuccess status ->
  RequestStatusCheck.is_possible status = true ->
  RequestStatusCheck.done status = true ->
  getGeneratedImageResult net = ApiSuccess res ->
  intervalCallback net w =
    (downloadImages net res
       (DatabaseService.getJobMetadata job (database w)) ;;
     database_deleteInProgressJob job ;;
     update (set_inProgress None) ;;
     update (set_loading false))
    (record (DbGetJobMetadata job)
       (record (ApiGetGeneratedImageResult job)
          (set_loading true
             (set_requestStatus (Some status)
                (record (ApiCheckGenerationStatus job) w))))).
Proof.
  intros Hjob Hstatus Hpossible Hdone Hres.
  unfold intervalCallback. run_method using Hjob.
  rewrite Hstatus. cbn. rewrite Hpossible, Hdone.
  run_method using Hjob. rewrite Hres. cbn.
  match goal with
  | |- context [downloadImages net res ?md ?w1] =>
      pose proof (downloadImages_frame net res md w1) as Hframe;
      destruct (downloadImages net res md w1) as [[] w2|e w2]
  end; cbn in *; [|reflexivity].
  destruct Hframe as (_ & Hin & _). rewrite Hjob in Hin.
  run_method using Hin. reflexivity.
Qed.

Lemma intervalCallback_branch (net : Remote) (w : World) :
  tick_branch net w (intervalCallback net w).
Proof.
  destruct (inProgress w) as [job|] eqn:Hjob.
  2: { rewrite (idle_tick_run net w Hjob). by constructor. }
  destruct (checkGenerationStatus net) as [status|err] eqn:Hstatus.
  2: { replace (intervalCallback net w) with
         (Returned tt
            (record (MessageError (api_error (message err) (rc err)))
               (record (ApiCheckGenerationStatus job) w)));
         [by constructor|].
       unfold intervalCallback. run_method using Hjob.
       rewrite Hstatus. reflexivity. }
  destruct (RequestStatusCheck.is_possible status) eqn:Hpossible.
  2: { rewrite (impossible_tick_run net w job status) by assumption.
       by constructor. }
  destruct (RequestStatusCheck.done status) eqn:Hdone.
  2: { rewrite (waiting_tick_run net w job status) by assumption.
       by constructor. }
  destruct (getGeneratedImageResult net) as [res|err] eqn:Hres.
  2: { replace (intervalCallback net w) with
         (Returned tt
            (set_loading false
               (record (MessageError (api_error (message err) (rc err)))
                  (record (ApiGetGeneratedImageResult job)
                     (set_loading true
                        (set_requestStatus (Some status)
                           (record (ApiCheckGenerationStatus job) w)))))));
         [by constructor|].
       unfold intervalCallback. run_method using Hjob.
       rewrite Hstatus. cbn. rewrite Hpossible, Hdone.
       run_method using Hjob. rewrite Hres. reflexivity. }
  rewrite (done_tick_run net w job status res) by assumption.
  by constructor.
Qed.

Arguments intervalCallback : simpl never.

(** ** The impossible branch *)

Example impossible_message_key :
  translation_key generate_impossible = "app.error.generate.impossible".
Proof. reflexivity. Qed.

(** C2.  A tick on an existing job whose status check answers
    [is_possible = false] returns normally after exactly the calls: status
    check, one cancellation, deletion of the persisted record, the
    "impossible" error, with no result fetch; the in-memory reference is
    cleared, the record is gone from the store, and whatever the remote
    side would answer later, later ticks do nothing at all. *)
Theorem impossible_tick_cancels_and_forgets
    (net : Remote) (w : World) (job : JobInProgress.t)
    (status : RequestStatusCheck.t) :
  inProgress w = Some job ->
  checkGenerationStatus net = ApiSuccess status ->
  RequestStatusCheck.is_possible status = false ->
  exists w',
    intervalCallback net w = Returned tt w'
    /\ calls_since w w' =
         [ApiCheckGenerationStatus job; ApiCancelJob job;
          DbDeleteInProgressJob job; MessageError generate_impossible]
    /\ count is_cancellation (calls_since w w') = 1%nat
    /\ count is_result_fetch (calls_since w w') = 0%nat
    /\ database w' = DatabaseService.deleteInProgressJob job (database w)
    /\ (forall j, j ∈ DatabaseService.jobs (database w') ->
          JobInProgress.id j <> JobInProgress.id job)
    /\ inProgress w' = None
    /\ result w' = result w
    /\ forall later, pollingLoop later w' = w'.
Proof.
  intros Hjob Hstatus Himpossible.
  eexists. split; [exact (impossible_tick_run net w job status
                            Hjob Hstatus Himpossible)|].
  split; [reduce_calls; reflexivity|].
  split; [reduce_calls; reflexivity|].
  split; [reduce_calls; reflexivity|].
  cbn. repeat split.
  - intros j Hin. apply list_elem_of_filter in Hin. tauto.
  - induction later as [|n later IH]; [reflexivity|]. cbn [pollingLoop].
    rewrite idle_tick_run by reflexivity. exact IH.
Qed.

Lemma impossible_tick_witness :
  inProgress Sample.polling = Some Sample.job
  /\ checkGenerationStatus Sample.net_impossible = ApiSuccess Sample.impossible
  /\ RequestStatusCheck.is_possible Sample.impossible = false
  /\ exists w',
       intervalCallback Sample.net_impossible Sample.polling = Returned tt w'
       /\ calls_since Sample.polling w' =
            [ApiCheckGenerationStatus Sample.job; ApiCancelJob Sample.job;
             DbDeleteInProgressJob Sample.job;
             MessageError generate_impossible]
       /\ count is_cancellation (calls_since Sample.polling w') = 1%nat
       /\ count is_result_fetch (calls_since Sample.polling w') = 0%nat
       /\ database w' =
            DatabaseService.deleteInProgressJob Sample.job
              (database Sample.polling)
       /\ (forall j, j ∈ DatabaseService.jobs (database w') ->
             JobInProgress.id j <> JobInProgress.id Sample.job)
       /\ inProgress w' = None
       /\ result w' = result Sample.polling
       /\ forall later, pollingLoop later w' = w'.
Proof.
  split; [reflexivity|]. split; [reflexivity|]. split; [reflexivity|].
  apply (impossible_tick_cancels_and_forgets
           Sample.net_impossible Sample.polling Sample.job Sample.impossible);
    reflexivity.
Defined.

(** ** The done branch *)

(** C5.  A tick on an existing job whose status check answers done (and
    possible, so that the result is fetched) and whose result fetch fails
    hands the API error to the message service and returns with the busy
    flag cleared; the in-memory job, the persisted store, the displayed
    result and the object URLs are exactly as before, and the only calls
    were the status check, the result fetch and the error message. *)
Theorem failed_result_fetch_keeps_job
    (net : Remote) (w : World) (job : JobInProgress.t)
    (status : RequestStatusCheck.t) (err : ErrorResponse) :
  inProgress w = Some job ->
  checkGenerationStatus net = ApiSuccess status ->
  RequestStatusCheck.is_possible status = true ->
  RequestStatusCheck.done status = true ->
  getGeneratedImageResult net = ApiFailure err ->
  exists w',
    intervalCallback net w = Returned tt w'
    /\ calls_since w w' =
         [ApiCheckGenerationStatus job; ApiGetGeneratedImageResult job;
          MessageError (api_error (message err) (rc err))]
    /\ loading w' = false
    /\ inProgress w' = Some job
    /\ database w' = database w
    /\ result w' = result w
    /\ urls w' = urls w.
Proof.
  intros Hjob Hstatus Hpossible Hdone Hres.
  eexists. split.
  - unfold intervalCallback. run_method using Hjob.
    rewrite Hstatus. cbn. rewrite Hpossible, Hdone.
    run_method using Hjob. rewrite Hres. cbn. reflexivity.
  - split; [reduce_calls; reflexivity|]. cbn. by rewrite Hjob.
Qed.

Lemma failed_result_fetch_witness :
  inProgress Sample.polling = Some Sample.job
  /\ checkGenerationStatus Sample.net_result_unavailable
     = ApiSuccess Sample.finished
  /\ RequestStatusCheck.is_possible Sample.finished = true
  /\ RequestStatusCheck.done Sample.finished = true
  /\ getGeneratedImageResult Sample.net_result_unavailable
     = ApiFailure Sample.unavailable
  /\ exists w',
       intervalCallback Sample.net_result_unavailable Sample.polling
       = Returned tt w'
       /\ calls_since Sample.polling w' =
            [ApiCheckGenerationStatus Sample.job;
             ApiGetGeneratedImageResult Sample.job;
             MessageError (api_error "Service unavailable" "503")]
       /\ loading w' = false
       /\ inProgress w' = Some Sample.job
       /\ database w' = database Sample.polling
       /\ result w' = result Sample.polling
       /\ urls w' = urls Sample.polling.
Proof.
  do 5 (split; [reflexivity|]).
  apply (failed_result_fetch_keeps_job Sample.net_result_unavailable
           Sample.polling Sample.job Sample.finished Sample.unavailable);
    reflexivity.
Defined.

(** C10.  A tick on an existing job whose status check answers done (and
    possible), whose result fetch succeeds on [first :: rest] and whose
    downloads resolve with an empty first body returns normally: the
    download error is reported, the displayed result and the object URLs
    are as before, and still the persisted record is deleted and the
    in-memory reference cleared. *)
Theorem empty_body_still_discards_job
    (net : Remote) (w : World) (job : JobInProgress.t)
    (status : RequestStatusCheck.t) (res : RequestStatusFull.t)
    (first : GenerationResult.t) (rest : list GenerationResult.t) :
  inProgress w = Some job ->
  checkGenerationStatus net = ApiSuccess status ->
  RequestStatusCheck.is_possible status = true ->
  RequestStatusCheck.done status = true ->
  getGeneratedImageResult net = ApiSuccess res ->
  RequestStatusFull.generations res = first :: rest ->
  httpGet net 0 (GenerationResult.img first) = HttpResolved None ->
  all_resolved (requests net 1 rest) = true ->
  exists w',
    intervalCallback net w = Returned tt w'
    /\ calls_since w w' =
         [ApiCheckGenerationStatus job; ApiGetGeneratedImageResult job;
          DbGetJobMetadata job]
         ++ map (fun g => HttpGet (GenerationResult.img g)) (first :: rest)
         ++ [MessageError image_download_failed; DbDeleteInProgressJob job]
    /\ result w' = result w
    /\ urls w' = urls w
    /\ database w' = DatabaseService.deleteInProgressJob job (database w)
    /\ (forall j, j ∈ DatabaseService.jobs (database w') ->
          JobInProgress.id j <> JobInProgress.id job)
    /\ inProgress w' = None
    /\ loading w' = false.
Proof.
  intros Hjob Hstatus Hpossible Hdone Hres Hgens Hfirst Hrest.
  eexists. split.
  - rewrite (done_tick_run net w job status res) by assumption.
    unfold bind at 1.
    rewrite (downloadImages_empty_body net res _ _ first rest) by assumption.
    run_method using Hjob. reflexivity.
  - rewrite Hgens. split.
    + apply calls_since_trace. cbn. rewrite <- ?app_assoc. cbn.
      rewrite <- ?app_assoc. reflexivity.
    + cbn. repeat split.
      intros j Hin. apply list_elem_of_filter in Hin. tauto.
Qed.

Lemma empty_body_witness :
  inProgress Sample.polling = Some Sample.job
  /\ checkGenerationStatus Sample.net_empty_body = ApiSuccess Sample.finished
  /\ RequestStatusCheck.is_possible Sample.finished = true
  /\ RequestStatusCheck.done Sample.finished = true
  /\ getGeneratedImageResult Sample.net_empty_body = ApiSuccess Sample.full
  /\ RequestStatusFull.generations Sample.full
     = Sample.first :: [Sample.second]
  /\ httpGet Sample.net_empty_body 0 (GenerationResult.img Sample.first)
     = HttpResolved None
  /\ all_resolved (requests Sample.net_empty_body 1 [Sample.second]) = true
  /\ exists w',
       intervalCallback Sample.net_empty_body Sample.polling = Returned tt w'
       /\ result w' = None
       /\ DatabaseService.jobs (database w') = []
       /\ inProgress w' = None.
Proof.
  do 8 (split; [reflexivity|]).
  destruct (empty_body_still_discards_job Sample.net_empty_body
              Sample.polling Sample.job Sample.finished Sample.full
              Sample.first [Sample.second]
              eq_refl eq_refl eq_refl eq_refl eq_refl eq_refl eq_refl eq_refl)
    as (w' & Hrun & _ & Hresult & _ & Hdb & _ & Hin & _).
  exists w'. split; [exact Hrun|]. split; [exact Hresult|].
  split; [rewrite Hdb; reflexivity | exact Hin].
Defined.

(** C9.  Whatever the remote side answers and whatever world a tick starts
    from, the tick does not end in the error "Job cannot be null", and it
    never has to fall back on re-reading the persisted jobs: a tick without
    an in-memory job returns at once, and in the done branch the in-memory
    job is still there. *)
Theorem null_job_error_unreachable (net : Remote) (w : World) :
  throws_null_job (intervalCallback net w) = false
  /\ count is_persisted_lookup
       (calls_since w (final_world (intervalCallback net w))) = 0%nat.
Proof.
  destruct (intervalCallback_branch net w)
    as [ | | | | |job status res Hjob Hstatus Hpossible Hdone Hres];
    try (split; [reflexivity|]; reduce_calls; reflexivity).
  - (* no job held *)
    split; [reflexivity|]. unfold calls_since. cbn. by rewrite drop_all.
  - (* the done branch, as far as the download lets it go *)
    unfold_calls. unfold_monad. cbn.
    match goal with
    | |- context [downloadImages net res ?md ?w1] =>
        pose proof (downloadImages_frame net res md w1) as Hframe;
        destruct (downloadImages net res md w1) as [[] w2|e w2]
    end; cbn in Hframe;
      destruct Hframe as (_ & _ & _ & _ & _ & (evs & Htrace & Hevs) & Hnull);
      destruct (download_calls_count evs Hevs) as (Hlookups & _);
      cbn [final_world].
    + split; [reflexivity|].
      rewrite (calls_since_trace _ _
        ([ApiCheckGenerationStatus job; ApiGetGeneratedImageResult job;
          DbGetJobMetadata job] ++ evs ++ [DbDeleteInProgressJob job])).
      * rewrite !count_app, Hlookups. reflexivity.
      * cbn. rewrite Htrace. cbn. rewrite <- ?app_assoc. reflexivity.
    + split; [exact Hnull|].
      rewrite (calls_since_trace _ _
        ([ApiCheckGenerationStatus job; ApiGetGeneratedImageResult job;
          DbGetJobMetadata job] ++ evs)).
      * rewrite !count_app, Hlookups. reflexivity.
      * rewrite Htrace. cbn. rewrite <- ?app_assoc. reflexivity.
Qed.

(** A rejected download, seen from the tick: the callback ends as an
    unhandled rejection, with the busy flag still set, the job still held
    and persisted, and nothing handed to the message service. *)
Example rejected_download_stalls_tick :
  exists w',
    intervalCallback Sample.net_download_rejected Sample.polling
    = Thrown (HttpErrorResponse "https://img.example/1.webp") w'
    /\ count is_message (calls_since Sample.polling w') = 0%nat
    /\ loading w' = true
    /\ inProgress w' = Some Sample.job
    /\ DatabaseService.jobs (database w') = [Sample.job].
Proof. eexists. split; [vm_compute; reflexivity|]. by vm_compute. Qed.

(** ** A whole run of the loop *)

(** C1.  Start from a world that holds a job, persisted as the only
    record.  Three ticks whose status checks answer not-done and possible,
    not-done and possible, then done (and possible, so that the result is
    fetched), the result fetch succeeding: over the three ticks there are
    three status checks, no cancellation and exactly one result fetch; and
    when the done tick completes, the in-memory reference is cleared and no
    persisted JobInProgress record remains.  The done tick does complete
    when the generation list is not empty, its downloads resolve and the
    metadata of the job is cached. *)
Theorem polling_until_done
    (net1 net2 net3 : Remote) (w : World) (job : JobInProgress.t)
    (s1 s2 s3 : RequestStatusCheck.t) (res : RequestStatusFull.t) :
  inProgress w = Some job ->
  consistent w ->
  checkGenerationStatus net1 = ApiSuccess s1 ->
  RequestStatusCheck.is_possible s1 = true ->
  RequestStatusCheck.done s1 = false ->
  checkGenerationStatus net2 = ApiSuccess s2 ->
  RequestStatusCheck.is_possible s2 = true ->
  RequestStatusCheck.done s2 = false ->
  checkGenerationStatus net3 = ApiSuccess s3 ->
  RequestStatusCheck.is_possible s3 = true ->
  RequestStatusCheck.done s3 = true ->
  getGeneratedImageResult net3 = ApiSuccess res ->
  let last := intervalCallback net3 (pollingLoop [net1; net2] w) in
  let calls := calls_since w (final_world last) in
  final_world last = pollingLoop [net1; net2; net3] w
  /\ count is_status_check calls = 3%nat
  /\ count is_cancellation calls = 0%nat
  /\ count is_result_fetch calls = 1%nat
  /\ (completes last ->
        inProgress (final_world last) = None
        /\ DatabaseService.jobs (database (final_world last)) = [])
  /\ (RequestStatusFull.generations res <> [] ->
      all_resolved (requests net3 0 (RequestStatusFull.generations res)) = true ->
      is_Some (DatabaseService.getJobMetadata job (database w)) ->
      completes last).
Proof.
  intros Hjob Hconsistent H1 Hp1 Hd1 H2 Hp2 Hd2 H3 Hp3 Hd3 Hres last calls.
  assert (Hbefore : pollingLoop [net1; net2] w =
            set_requestStatus (Some s2)
              (record (ApiCheckGenerationStatus job)
                 (set_requestStatus (Some s1)
                    (record (ApiCheckGenerationStatus job) w)))).
  { cbn [pollingLoop].
    rewrite (waiting_tick_run net1 w job s1) by assumption.
    cbn [final_world].
    rewrite (waiting_tick_run net2 _ job s2) by assumption. reflexivity. }
  split; [reflexivity|].
  subst calls last. rewrite Hbefore.
  rewrite (done_tick_run net3 _ job s3 res) by assumption.
  run_method using Hjob.
  match goal with
  | |- context [downloadImages net3 res ?md ?w1] =>
      pose proof (downloadImages_frame net3 res md w1) as Hframe;
      destruct (downloadImages net3 res md w1) as [[] w2|e w2] eqn:Hrun
  end; cbn in Hframe;
    destruct Hframe as (_ & Hin & Hdb & _ & _ & (evs & Htrace & Hevs) & _);
    destruct (download_calls_count evs Hevs) as (_ & Hc & Hr & Hs & _).
  - (* the download returned *)
    cbn [final_world].
    rewrite (calls_since_trace _ _
      ([ApiCheckGenerationStatus job; ApiCheckGenerationStatus job;
        ApiCheckGenerationStatus job; ApiGetGeneratedImageResult job;
        DbGetJobMetadata job] ++ evs ++ [DbDeleteInProgressJob job])).
    2: { cbn. rewrite Htrace. cbn. rewrite <- ?app_assoc. reflexivity. }
    rewrite !count_app, Hc, Hr, Hs. do 3 (split; [reflexivity|]).
    split; [|done]. intros _. split; [reflexivity|].
    cbn. rewrite Hdb. unfold consistent in Hconsistent.
    rewrite Hconsistent, Hjob. change (option_list (Some job)) with [job].
    rewrite filter_cons_False by (intros H; by apply H). reflexivity.
  - (* the download threw *)
    cbn [final_world].
    rewrite (calls_since_trace _ _
      ([ApiCheckGenerationStatus job; ApiCheckGenerationStatus job;
        ApiCheckGenerationStatus job; ApiGetGeneratedImageResult job;
        DbGetJobMetadata job] ++ evs)).
    2: { rewrite Htrace. cbn. rewrite <- ?app_assoc. reflexivity. }
    rewrite !count_app, Hc, Hr, Hs. do 3 (split; [reflexivity|]).
    split; [intros []|]. intros Hgens Hresolved [md Hmd]. exfalso.
    destruct (RequestStatusFull.generations res) as [|first rest] eqn:Eg;
      [done|].
    cbn in Hresolved. apply andb_prop in Hresolved as [Hfirst Hrest].
    unfold resolved in Hfirst. cbn in Hfirst.
    destruct (httpGet net3 0 (GenerationResult.img first))
      as [|[image|]] eqn:Eh; [discriminate| |].
    + rewrite Hmd in Hrun.
      rewrite (downloadImages_image net3 res md _ first rest image Eg Eh Hrest)
        in Hrun.
      discriminate.
    + rewrite (downloadImages_empty_body net3 res _ _ first rest Eg Eh Hrest)
        in Hrun.
      discriminate.
Qed.

Lemma polling_until_done_witness :
  let last := intervalCallback Sample.net_done
                (pollingLoop [Sample.net_waiting; Sample.net_waiting]
                   Sample.polling) in
  let calls := calls_since Sample.polling (final_world last) in
  inProgress Sample.polling = Some Sample.job
  /\ consistent Sample.polling
  /\ completes last
  /\ count is_status_check calls = 3%nat
  /\ count is_cancellation calls = 0%nat
  /\ count is_result_fetch calls = 1%nat
  /\ inProgress (final_world last) = None
  /\ DatabaseService.jobs (database (final_world last)) = [].
Proof.
  pose proof (polling_until_done Sample.net_waiting Sample.net_waiting
                Sample.net_done Sample.polling Sample.job
                Sample.waiting Sample.waiting Sample.finished Sample.full
                eq_refl eq_refl eq_refl eq_refl eq_refl eq_refl eq_refl
                eq_refl eq_refl eq_refl eq_refl eq_refl)
    as (_ & Hs & Hc & Hr & Hcleared & Hcompletes).
  assert (Hdone : completes
            (intervalCallback Sample.net_done
               (pollingLoop [Sample.net_waiting; Sample.net_waiting]
                  Sample.polling))).
  { apply Hcompletes; [discriminate | reflexivity | eexists; reflexivity]. }
  cbv zeta. split; [reflexivity|]. split; [reflexivity|].
  split; [exact Hdone|].
  split; [exact Hs|]. split; [exact Hc|]. split; [exact Hr|].
  exact (Hcleared Hdone).
Defined.

(** ** Single job in flight *)

(** After a reload the job of the one persisted record, if any, is held
    again. *)
Lemma restoreInProgress_consistent (w : World) :
  (length (DatabaseService.jobs (database w)) <= 1)%nat ->
  consistent (final_world (restoreInProgress w)).
Proof.
  intros Hone. unfold consistent, restoreInProgress.
  unfold_calls. unfold_monad. cbn.
  unfold DatabaseService.getJobsInProgress.
  destruct (DatabaseService.jobs (database w)) as [|job [|other rest]];
    [reflexivity | reflexivity | cbn in Hone; lia].
Qed.

Lemma tick_consistent (net : Remote) (w : World) :
  consistent w -> consistent (final_world (intervalCallback net w)).
Proof.
  intros Hw.
  destruct (intervalCallback_branch net w)
    as [ | |job status Hjob _ _ | | |job status res Hjob _ _ _ _];
    try exact Hw.
  - unfold consistent in *. cbn. rewrite Hw, Hjob.
    change (option_list (Some job)) with [job].
    by rewrite filter_cons_False by (intros H; by apply H).
  - unfold_calls. unfold_monad. cbn.
    match goal with
    | |- context [downloadImages net res ?md ?w1] =>
        destruct (downloadImages_frame net res md w1)
          as (_ & Hin & Hdb & _);
        destruct (downloadImages net res md w1) as [[] w2|e w2]
    end; unfold consistent in *; cbn in *.
    + rewrite Hdb, Hw, Hjob. change (option_list (Some job)) with [job].
      by rewrite filter_cons_False by (intros H; by apply H).
    + by rewrite Hdb, Hin.
Qed.

(** ** Object URLs *)

Lemma blob_url_inj (n m : nat) : URL.blob_url n = URL.blob_url m -> n = m.
Proof.
  unfold URL.blob_url. cbn. intros H. injection H as H.
  by apply (inj pretty).
Qed.

Lemma createObjectURL_wf (image : Blob) (u : URL.t) :
  urls_wf u -> urls_wf (snd (URL.createObjectURL image u)).
Proof.
  intros [Hknown Hrevoked]. split; cbn.
  - intros url [Hlive|Hrev].
    + destruct (decide (URL.blob_url (URL.issued u) = url)) as [<-|Hne].
      * exists (URL.issued u). split; [lia | reflexivity].
      * rewrite lookup_insert_ne in Hlive by exact Hne.
        destruct (Hknown url (or_introl Hlive)) as (n & Hn & ->).
        exists n. split; [lia | reflexivity].
    + destruct (Hknown url (or_intror Hrev)) as (n & Hn & ->).
      exists n. split; [lia | reflexivity].
  - intros url Hrev.
    destruct (Hknown url (or_intror Hrev)) as (n & Hn & ->).
    rewrite lookup_insert_ne; [by apply Hrevoked|].
    intros Heq%blob_url_inj. lia.
Qed.

Lemma revokeObjectURL_wf (url : string) (u : URL.t) :
  urls_wf u ->
  is_Some (URL.live u !! url) ->
  urls_wf (URL.revokeObjectURL url u).
Proof.
  intros [Hknown Hrevoked] Hlive. split; cbn.
  - intros url' [Hlive'|Hrev].
    + apply Hknown. left.
      destruct (decide (url = url')) as [->|Hne]; [exact Hlive|].
      by rewrite lookup_delete_ne in Hlive'.
    + apply elem_of_union in Hrev as [->%elem_of_singleton|Hrev];
        apply Hknown; auto.
  - intros url' Hrev.
    destruct (decide (url = url')) as [->|Hne]; [apply lookup_delete_eq|].
    rewrite lookup_delete_ne by exact Hne. apply Hrevoked.
    apply elem_of_union in Hrev as [->%elem_of_singleton|Hrev]; [done|exact Hrev].
Qed.

(** A component that displays nothing, in a browser that has issued no
    object URL yet, has no dangling handle. *)
Lemma no_dangling_initial (w : World) :
  result w = None -> urls w = URL.mk 0 ∅ ∅ -> no_dangling w.
Proof.
  intros Hresult Hurls. unfold no_dangling. rewrite Hresult, Hurls.
  split; [split|]; cbn.
  - intros url [[image Hlive]|Hrev]; [by rewrite lookup_empty in Hlive|].
    by apply not_elem_of_empty in Hrev.
  - intros url _. apply lookup_empty.
  - intros r [=].
Qed.

(** A displayed result never holds a released object URL. *)
Lemma no_dangling_not_revoked (w : World) (r : Result.t) :
  no_dangling w -> result w = Some r ->
  Result.source r ∉ URL.revoked (urls w).
Proof.
  intros [[_ Hrevoked] Hshown] Hr Hrev.
  apply Hshown in Hr as [image Hlive].
  rewrite (Hrevoked _ Hrev) in Hlive. discriminate.
Qed.

(** What [downloadImages] can do to the object URLs and the result: leave
    both, or create one object URL and, unless it throws, display it. *)
Lemma downloadImages_handles (net : Remote) (res : RequestStatusFull.t)
    (metadata : option JobMetadata.t) (w : World) :
  let w' := final_world (downloadImages net res metadata w) in
  (urls w' = urls w /\ result w' = result w)
  \/ exists image,
       urls w' = snd (URL.createObjectURL image (urls w))
       /\ (result w' = result w
           \/ exists r, result w' = Some r
                /\ Result.source r = fst (URL.createObjectURL image (urls w))).
Proof.
  cbn. unfold downloadImages, bind. rewrite push_requests_run.
  unfold await_all.
  destruct (promise_all _) as [e|[|[image|] bs]]; cbn; auto.
  right. exists image. unfold_calls. unfold_monad. cbn.
  destruct metadata as [md|], (head (RequestStatusFull.generations res));
    cbn; split; eauto.
Qed.

Lemma downloadImages_no_dangling (net : Remote) (res : RequestStatusFull.t)
    (metadata : option JobMetadata.t) (w : World) :
  no_dangling w ->
  no_dangling (final_world (downloadImages net res metadata w))
  /\ URL.revoked (urls (final_world (downloadImages net res metadata w)))
     = URL.revoked (urls w).
Proof.
  intros [Hwf Hshown].
  destruct (downloadImages_handles net res metadata w)
    as [[Hu Hr]|(image & Hu & Hr)]; unfold no_dangling; rewrite Hu.
  - rewrite Hr. auto.
  - split; [|reflexivity]. split; [by apply createObjectURL_wf|].
    intros r Hres. cbn.
    destruct Hr as [Hr|(r' & Hr & Hsrc)].
    + rewrite Hr in Hres. apply Hshown in Hres.
      destruct (decide (URL.blob_url (URL.issued (urls w)) = Result.source r))
        as [<-|Hne]; [rewrite lookup_insert_eq; eauto|].
      by rewrite lookup_insert_ne.
    + rewrite Hr in Hres. injection Hres as <-. rewrite Hsrc. cbn.
      rewrite lookup_insert_eq. eauto.
Qed.

Lemma tick_no_dangling (net : Remote) (w : World) :
  no_dangling w ->
  no_dangling (final_world (intervalCallback net w))
  /\ URL.revoked (urls (final_world (intervalCallback net w)))
     = URL.revoked (urls w).
Proof.
  intros Hw.
  destruct (intervalCallback_branch net w)
    as [ | | | | |job status res Hjob Hstatus Hpossible Hdone Hres];
    try (split; [exact Hw | reflexivity]).
  unfold_calls. unfold_monad. cbn.
  match goal with
  | |- context [downloadImages net res ?md ?w1] =>
      destruct (downloadImages_no_dangling net res md w1 Hw) as [Hnd Hrev];
      destruct (downloadImages net res md w1) as [[] w2|e w2]
  end; cbn in *; auto.
Qed.

(** ** The two halves of [generateImage] *)

(** The sample form passes every validator; a width of 700 does not. *)
Example sample_form_valid :
  form_valid Sample.filled = true /\ form_valid Sample.misfilled = false.
Proof. split; reflexivity. Qed.

Example sample_form_options :
  GenerationOptions.width (formAsOptions Sample.filled) = 768
  /\ GenerationOptions.height (formAsOptions Sample.filled) = 512
  /\ GenerationOptions.denoisingStrength (formAsOptions Sample.filled)
     = (75 # 100)%Q.
Proof. repeat split. Qed.

(** What the code checks implies the constraints of the data model on the
    options it submits, but for the integrality of steps. *)
Lemma form_valid_meets_validated_constraints (f : Form.t) :
  form_valid f = true -> validated_field_constraints (formAsOptions f) = true.
Proof.
  destruct f as [prompt negative sampler cfg denoising height width steps model].
  unfold form_valid, validated_field_constraints, formAsOptions. cbn.
  rewrite !andb_true_iff.
  intros (((((((Hprompt & _) & (Hcfg & Hcfg0) & Hcfg1) & Hden0 & Hden1)
              & ((Hh & Hh0) & Hh1) & Hh64) & ((Hw & Hw0) & Hw1) & Hw64)
            & (Hs & Hs0) & Hs1) & Hmodel).
  destruct prompt as [prompt|]; [|discriminate].
  destruct cfg as [cfg|]; [|discriminate].
  destruct height as [height|]; [|discriminate].
  destruct width as [width|]; [|discriminate].
  destruct steps as [steps|]; [|discriminate].
  destruct model as [model|]; [|discriminate].
  cbn in *.
  assert (Hrem : forall x, (64 <=? x)%Z = true -> (Z.rem x 64 =? 0)%Z = true ->
                           (x mod 64 =? 0)%Z = true).
  { intros x Hx Hr. apply Z.leb_le in Hx.
    rewrite <- Z.rem_mod_nonneg by lia. exact Hr. }
  rewrite Hprompt, Hcfg0, Hcfg1, Hh0, Hh1, Hw0, Hw1, Hs0, Hs1, Hmodel.
  rewrite (Hrem _ Hh0 Hh64), (Hrem _ Hw0 Hw64).
  destruct denoising as [denoising|]; cbn in *;
    rewrite ?Hden0, ?Hden1; repeat split; reflexivity.
Qed.

(** The constraints of the data model are the validated ones and that
    steps be an integer. *)
Lemma spec_field_constraints_split (o : GenerationOptions.t) :
  spec_field_constraints o
  = validated_field_constraints o && is_integer (GenerationOptions.steps o).
Proof.
  unfold spec_field_constraints, validated_field_constraints.
  destruct (negb (GenerationOptions.prompt o =? "")),
    (Qle_bool 0 (GenerationOptions.cfgScale o)
     && Qle_bool (GenerationOptions.cfgScale o) 100),
    (Qle_bool (1 # 100) (GenerationOptions.denoisingStrength o)
     && Qle_bool (GenerationOptions.denoisingStrength o) 1),
    ((64 <=? GenerationOptions.height o)%Z
     && (GenerationOptions.height o <=? 3072)%Z
     && (GenerationOptions.height o mod 64 =? 0)%Z),
    ((64 <=? GenerationOptions.width o)%Z
     && (GenerationOptions.width o <=? 3072)%Z
     && (GenerationOptions.width o mod 64 =? 0)%Z),
    (Qle_bool 1 (GenerationOptions.steps o)),
    (Qle_bool (GenerationOptions.steps o) 500),
    (is_integer (GenerationOptions.steps o)),
    (negb (GenerationOptions.model o =? "")); reflexivity.
Qed.

Lemma generateImage_guard_rejects (w : World) :
  form_valid (form w) = false \/ is_Some (inProgress w) ->
  generateImage_guard w =
    Returned false
      (record (MessageError (if form_valid (form w)
                             then generation_in_progress else form_invalid)) w).
Proof.
  intros Hguard. unfold generateImage_guard.
  destruct (form_valid (form w)) eqn:Hvalid.
  - destruct Hguard as [Hguard|[job Hjob]]; [discriminate|].
    run_method using Hvalid. rewrite Hjob. reflexivity.
  - run_method using Hvalid. reflexivity.
Qed.

Lemma generateImage_guard_accepts (w : World) :
  form_valid (form w) = true ->
  inProgress w = None ->
  generateImage_guard w =
    Returned true
      (set_result None
         match result w with
         | Some r =>
             record (UrlRevokeObjectURL (Result.source r))
               (set_urls (URL.revokeObjectURL (Result.source r) (urls w))
                  (set_loading true w))
         | None => set_loading true w
         end).
Proof.
  intros Hvalid Hidle. unfold generateImage_guard.
  run_method using Hvalid. rewrite Hidle. cbn.
  destruct (result w); reflexivity.
Qed.

Lemma generateImage_submit_run (apiAnswer : ApiResponse JobInProgress.t)
    (w : World) :
  generateImage_submit apiAnswer w =
    Returned tt
      match apiAnswer with
      | ApiFailure e =>
          set_loading false
            (record (MessageError (api_error (message e) (rc e)))
               (record (ApiGenerateImage (formAsOptions (form w))) w))
      | ApiSuccess job =>
          set_loading false
            (set_inProgress (Some job)
               (set_database
                  (DatabaseService.storeJobMetadata
                     {| JobMetadata.requestId := JobInProgress.id job;
                        JobMetadata.height :=
                          GenerationOptions.height (formAsOptions (form w));
                        JobMetadata.width :=
                          GenerationOptions.width (formAsOptions (form w)) |}
                     (DatabaseService.addInProgressJob job (database w)))
                  (record (DbStoreJobMetadata
                     {| JobMetadata.requestId := JobInProgress.id job;
                        JobMetadata.height :=
                          GenerationOptions.height (formAsOptions (form w));
                        JobMetadata.width :=
                          GenerationOptions.width (formAsOptions (form w)) |})
                     (record (DbAddInProgressJob job)
                        (record (ApiGenerateImage (formAsOptions (form w)))
                           w)))))
      end.
Proof. destruct apiAnswer; reflexivity. Qed.

Lemma generateImage_accepted (apiAnswer : ApiResponse JobInProgress.t)
    (w w1 : World) :
  generateImage_guard w = Returned true w1 ->
  generateImage apiAnswer w = generateImage_submit apiAnswer w1.
Proof. intros H. unfold generateImage, bind. by rewrite H. Qed.

Lemma generateImage_rejected (apiAnswer : ApiResponse JobInProgress.t)
    (w w1 : World) :
  generateImage_guard w = Returned false w1 ->
  generateImage apiAnswer w = Returned tt w1.
Proof. intros H. unfold generateImage, bind. by rewrite H. Qed.

(** C3 (as amended).  When the options to submit fail a field constraint
    that the form validates (any constraint of the data model but that
    steps be an integer), or the form fails a validator, or a job is
    already held, [generateImage] only hands one error to the message
    service (the invalid-form error, else the in-progress error) and
    returns: no call leaves the browser, nothing is written to the store,
    and the world is otherwise untouched.  A held job rejects the
    submission whether or not the form is valid. *)
Theorem guarded_submission_is_rejected
    (apiAnswer : ApiResponse JobInProgress.t) (w : World) :
  validated_field_constraints (formAsOptions (form w)) = false
  \/ form_valid (form w) = false
  \/ is_Some (inProgress w) ->
  let msg := if form_valid (form w) then generation_in_progress
             else form_invalid in
  generateImage apiAnswer w = Returned tt (record (MessageError msg) w)
  /\ calls_since w (final_world (generateImage apiAnswer w))
       = [MessageError msg]
  /\ count is_network_call
       (calls_since w (final_world (generateImage apiAnswer w))) = 0%nat
  /\ count is_database_write
       (calls_since w (final_world (generateImage apiAnswer w))) = 0%nat
  /\ database (final_world (generateImage apiAnswer w)) = database w
  /\ inProgress (final_world (generateImage apiAnswer w)) = inProgress w.
Proof.
  intros Hguard msg.
  assert (Hcode : form_valid (form w) = false \/ is_Some (inProgress w)).
  { destruct Hguard as [Hspec|Hguard]; [left|exact Hguard].
    destruct (form_valid (form w)) eqn:Hvalid; [|reflexivity].
    by rewrite (form_valid_meets_validated_constraints _ Hvalid) in Hspec. }
  rewrite (generateImage_rejected apiAnswer w _
             (generateImage_guard_rejects w Hcode)).
  fold msg. cbn [final_world]. split; [reflexivity|].
  reduce_calls. by destruct msg.
Qed.

Lemma guarded_submission_witness :
  (validated_field_constraints
     (formAsOptions (form Scenario.idle_misfilled)) = false
   \/ form_valid (form Scenario.idle_misfilled) = false
   \/ is_Some (inProgress Scenario.idle_misfilled))
  /\ generateImage (ApiSuccess Sample.job) Scenario.idle_misfilled
     = Returned tt (record (MessageError form_invalid) Scenario.idle_misfilled)
  /\ count is_network_call
       (calls_since Scenario.idle_misfilled
          (final_world (generateImage (ApiSuccess Sample.job)
                          Scenario.idle_misfilled))) = 0%nat.
Proof.
  assert (H : validated_field_constraints
                (formAsOptions (form Scenario.idle_misfilled)) = false
              \/ form_valid (form Scenario.idle_misfilled) = false
              \/ is_Some (inProgress Scenario.idle_misfilled))
    by (left; reflexivity).
  split; [exact H|].
  destruct (guarded_submission_is_rejected
              (ApiSuccess Sample.job) Scenario.idle_misfilled H)
    as (Hrun & _ & Hnet & _).
  split; [exact Hrun | exact Hnet].
Defined.

(** C3 as it was stated fails: a form whose steps are 30.5 passes every
    validator, although its options fail the constraint that steps be an
    integer; with no job held the submission goes to the API, the job and
    its metadata are persisted, and no error is shown. *)
Lemma fractional_steps_are_submitted :
  spec_field_constraints (formAsOptions (form Scenario.idle_fractional))
  = false
  /\ form_valid (form Scenario.idle_fractional) = true
  /\ inProgress Scenario.idle_fractional = None
  /\ calls_since Scenario.idle_fractional
       (final_world (generateImage (ApiSuccess Sample.job)
                       Scenario.idle_fractional))
     = [ApiGenerateImage (formAsOptions Scenario.fractional);
        DbAddInProgressJob Sample.job;
        DbStoreJobMetadata Sample.metadata]
  /\ count is_network_call
       (calls_since Scenario.idle_fractional
          (final_world (generateImage (ApiSuccess Sample.job)
                          Scenario.idle_fractional))) = 1%nat
  /\ count is_message
       (calls_since Scenario.idle_fractional
          (final_world (generateImage (ApiSuccess Sample.job)
                          Scenario.idle_fractional))) = 0%nat
  /\ DatabaseService.jobs (database Scenario.idle_fractional) = []
  /\ DatabaseService.jobs
       (database (final_world (generateImage (ApiSuccess Sample.job)
                                 Scenario.idle_fractional)))
     = [Sample.job].
Proof. repeat split. Qed.

(** C4.  With a valid form, no job held and a store that agrees (no
    persisted record), a submission that the API accepts with [job]
    returns with [job] as the one persisted JobInProgress record and as the
    job held in memory, and with the JobMetadata
    [{requestId: job.id, height, width}] persisted under the job's id,
    [height] and [width] being those of the options handed to the API. *)
Theorem accepted_submission_is_tracked (job : JobInProgress.t) (w : World) :
  form_valid (form w) = true ->
  inProgress w = None ->
  consistent w ->
  let options := formAsOptions (form w) in
  let md := {| JobMetadata.requestId := JobInProgress.id job;
               JobMetadata.height := GenerationOptions.height options;
               JobMetadata.width := GenerationOptions.width options |} in
  exists w',
    generateImage (ApiSuccess job) w = Returned tt w'
    /\ calls_since w w' =
         (match result w with
          | Some r => [UrlRevokeObjectURL (Result.source r)]
          | None => []
          end)
         ++ [ApiGenerateImage options; DbAddInProgressJob job;
             DbStoreJobMetadata md]
    /\ DatabaseService.getJobsInProgress (database w') = [job]
    /\ inProgress w' = Some job
    /\ DatabaseService.getJobMetadata job (database w') = Some md
    /\ loading w' = false.
Proof.
  intros Hvalid Hidle Hconsistent options md.
  eexists. split.
  - rewrite (generateImage_accepted _ w _
               (generateImage_guard_accepts w Hvalid Hidle)).
    apply generateImage_submit_run.
  - unfold consistent in Hconsistent. rewrite Hidle in Hconsistent.
    split.
    + apply calls_since_trace.
      destruct (result w); cbn; rewrite <- ?app_assoc; reflexivity.
    + destruct (result w); cbn; rewrite Hconsistent;
        (repeat split; try reflexivity);
        unfold DatabaseService.getJobMetadata; cbn; apply lookup_insert_eq.
Qed.

Lemma accepted_submission_witness :
  form_valid (form Sample.idle) = true
  /\ inProgress Sample.idle = None
  /\ consistent Sample.idle
  /\ exists w',
       generateImage (ApiSuccess Sample.job) Sample.idle = Returned tt w'
       /\ DatabaseService.getJobsInProgress (database w') = [Sample.job]
       /\ inProgress w' = Some Sample.job
       /\ DatabaseService.getJobMetadata Sample.job (database w')
          = Some (JobMetadata.mk "req-1" 512 768).
Proof.
  do 3 (split; [reflexivity|]).
  destruct (accepted_submission_is_tracked Sample.job Sample.idle
              eq_refl eq_refl eq_refl)
    as (w' & Hrun & _ & Hjobs & Hin & Hmd & _).
  exists w'. split; [exact Hrun|]. split; [exact Hjobs|].
  split; [exact Hin | exact Hmd].
Defined.

(** ** Invariants of every run *)

Lemma generateImage_consistent (apiAnswer : ApiResponse JobInProgress.t)
    (w : World) :
  consistent w -> consistent (final_world (generateImage apiAnswer w)).
Proof.
  intros Hw.
  destruct (form_valid (form w)) eqn:Hvalid;
    [destruct (inProgress w) as [job|] eqn:Hjob|].
  - by rewrite (generateImage_rejected apiAnswer w _
               (generateImage_guard_rejects w (or_intror (mk_is_Some _ _ Hjob)))).
  - rewrite (generateImage_accepted apiAnswer w _
               (generateImage_guard_accepts w Hvalid Hjob)).
    rewrite generateImage_submit_run.
    unfold consistent in *. rewrite Hjob in Hw.
    destruct apiAnswer as [job|e], (result w); cbn; rewrite Hw; cbn;
      by rewrite ?Hjob.
  - by rewrite (generateImage_rejected apiAnswer w _
               (generateImage_guard_rejects w (or_introl Hvalid))).
Qed.

Lemma generateImage_no_dangling (apiAnswer : ApiResponse JobInProgress.t)
    (w : World) :
  no_dangling w ->
  no_dangling (final_world (generateImage apiAnswer w))
  /\ URL.revoked (urls w)
     ⊆ URL.revoked (urls (final_world (generateImage apiAnswer w))).
Proof.
  intros [Hwf Hshown].
  destruct (form_valid (form w)) eqn:Hvalid;
    [destruct (inProgress w) as [job|] eqn:Hjob|].
  - rewrite (generateImage_rejected apiAnswer w _
               (generateImage_guard_rejects w (or_intror (mk_is_Some _ _ Hjob)))).
    by split.
  - rewrite (generateImage_accepted apiAnswer w _
               (generateImage_guard_accepts w Hvalid Hjob)).
    rewrite generateImage_submit_run.
    destruct (result w) as [r|] eqn:Hr.
    + assert (Hlive : is_Some (URL.live (urls w) !! Result.source r))
        by auto.
      pose proof (revokeObjectURL_wf _ _ Hwf Hlive) as Hwf'.
      destruct apiAnswer; (split; [split; [exact Hwf' | intros ? [=]]|]);
        cbn; set_solver.
    + destruct apiAnswer; (split; [split; [exact Hwf | intros ? [=]]|]);
        cbn; set_solver.
  - rewrite (generateImage_rejected apiAnswer w _
               (generateImage_guard_rejects w (or_introl Hvalid))).
    by split.
Qed.

Lemma run_consistent (actions : list Action) (w : World) :
  consistent w -> consistent (run actions w).
Proof.
  revert w. induction actions as [|[net|apiAnswer] later IH]; intros w Hw; cbn.
  - exact Hw.
  - apply IH. by apply tick_consistent.
  - apply IH. by apply generateImage_consistent.
Qed.

Lemma run_no_dangling (actions : list Action) (w : World) :
  no_dangling w ->
  no_dangling (run actions w)
  /\ URL.revoked (urls w) ⊆ URL.revoked (urls (run actions w)).
Proof.
  revert w. induction actions as [|[net|apiAnswer] later IH]; intros w Hw; cbn.
  - by split.
  - destruct (tick_no_dangling net w Hw) as [Hnd Hrev].
    destruct (IH _ Hnd) as [Hnd' Hrev']. split; [exact Hnd'|].
    by rewrite <- Hrev.
  - destruct (generateImage_no_dangling apiAnswer w Hw) as [Hnd Hrev].
    destruct (IH _ Hnd) as [Hnd' Hrev']. split; [exact Hnd'|].
    by transitivity
         (URL.revoked (urls (final_world (generateImage apiAnswer w)))).
Qed.

(** ** Release of the displayed result *)

(** C8.  With a valid form, no job held and a result [r] displayed (on a
    live object URL), [generateImage] reaches the submission after exactly
    one call, the revocation of [r]'s object URL, and with the result
    reference cleared: the API is called in that world, so that the
    revocation precedes the submission in the trace and no result is
    displayed at its end.  From there on, whatever ticks and submissions
    follow, a displayed result never holds a released object URL; in
    particular none holds [r]'s. *)
Theorem displayed_result_is_released_before_submission
    (w : World) (r : Result.t) :
  form_valid (form w) = true ->
  inProgress w = None ->
  result w = Some r ->
  no_dangling w ->
  exists w1,
    generateImage_guard w = Returned true w1
    /\ calls_since w w1 = [UrlRevokeObjectURL (Result.source r)]
    /\ result w1 = None
    /\ Result.source r ∈ URL.revoked (urls w1)
    /\ URL.live (urls w1) !! Result.source r = None
    /\ (forall apiAnswer,
          generateImage apiAnswer w = generateImage_submit apiAnswer w1
          /\ (exists later,
                calls_since w (final_world (generateImage apiAnswer w))
                = UrlRevokeObjectURL (Result.source r)
                  :: ApiGenerateImage (formAsOptions (form w)) :: later)
          /\ result (final_world (generateImage apiAnswer w)) = None)
    /\ (forall actions r',
          result (run actions w1) = Some r' ->
          (Result.source r' ∉ URL.revoked (urls (run actions w1)))
          /\ Result.source r' <> Result.source r).
Proof.
  intros Hvalid Hidle Hshown Hnd.
  pose proof (generateImage_guard_accepts w Hvalid Hidle) as Hguard.
  rewrite Hshown in Hguard.
  eexists. split; [exact Hguard|].
  split; [reduce_calls; reflexivity|].
  split; [reflexivity|].
  assert (Hrevoked : Result.source r ∈
            URL.revoked (URL.revokeObjectURL (Result.source r) (urls w)))
    by (cbn; set_solver).
  split; [exact Hrevoked|].
  split; [cbn; apply lookup_delete_eq|].
  split.
  - intros apiAnswer.
    rewrite (generateImage_accepted apiAnswer w _ Hguard).
    split; [reflexivity|]. rewrite generateImage_submit_run.
    destruct apiAnswer as [job|e]; cbn [final_world]; (split; [|reflexivity]);
      eexists; reduce_calls; reflexivity.
  - intros actions r' Hr'.
    match goal with
    | |- context [run actions ?w1] =>
        assert (Hnd1 : no_dangling w1)
    end.
    { destruct Hnd as [Hwf Hlive]. split; [|intros ? [=]]. cbn.
      apply revokeObjectURL_wf; auto. }
    destruct (run_no_dangling actions _ Hnd1) as [Hnd' Hmono].
    pose proof (no_dangling_not_revoked _ _ Hnd' Hr') as Hfresh.
    split; [exact Hfresh|].
    intros Heq. apply Hfresh. rewrite Heq. apply Hmono. exact Hrevoked.
Qed.

Lemma displayed_result_release_witness :
  form_valid (form Sample.showing) = true
  /\ inProgress Sample.showing = None
  /\ result Sample.showing = Some Sample.shown
  /\ no_dangling Sample.showing
  /\ exists w1,
       generateImage_guard Sample.showing = Returned true w1
       /\ calls_since Sample.showing w1 = [UrlRevokeObjectURL "blob:0"]
       /\ result w1 = None.
Proof.
  assert (Hnd : no_dangling Sample.showing).
  { split; [split|].
    - intros url [Hlive|Hrev].
      + exists 0%nat. split; [cbn; lia|].
        destruct (decide (url = "blob:0")) as [->|Hne]; [reflexivity|].
        cbn in Hlive. rewrite lookup_singleton_ne in Hlive by done.
        by destruct Hlive.
      + cbn in Hrev. set_solver.
    - intros url Hrev. cbn in Hrev. set_solver.
    - intros r [= <-]. by eexists. }
  do 3 (split; [reflexivity|]). split; [exact Hnd|].
  destruct (displayed_result_is_released_before_submission
              Sample.showing Sample.shown eq_refl eq_refl eq_refl Hnd)
    as (w1 & Hguard & Hcalls & Hresult & _).
  exists w1. split; [exact Hguard|]. split; [exact Hcalls | exact Hresult].
Defined.

(** * Further properties *)

(** ** Ticks that settle nothing *)

Lemma status_failed_tick_run (net : Remote) (w : World)
    (job : JobInProgress.t) (err : ErrorResponse) :
  inProgress w = Some job ->
  checkGenerationStatus net = ApiFailure err ->
  intervalCallback net w =
    Returned tt
      (record (MessageError (api_error (message err) (rc err)))
         (record (ApiCheckGenerationStatus job) w)).
Proof.
  intros Hjob Hstatus. unfold intervalCallback. run_method using Hjob.
  rewrite Hstatus. reflexivity.
Qed.

Lemma result_failed_tick_run (net : Remote) (w : World)
    (job : JobInProgress.t) (status : RequestStatusCheck.t)
    (err : ErrorResponse) :
  inProgress w = Some job ->
  checkGenerationStatus net = ApiSuccess status ->
  RequestStatusCheck.is_possible status = true ->
  RequestStatusCheck.done status = true ->
  getGeneratedImageResult net = ApiFailure err ->
  intervalCallback net w =
    Returned tt
      (set_loading false
         (record (MessageError (api_error (message err) (rc err)))
            (record (ApiGetGeneratedImageResult job)
               (set_loading true
                  (set_requestStatus (Some status)
                     (record (ApiCheckGenerationStatus job) w)))))).
Proof.
  intros Hjob Hstatus Hpossible Hdone Hres.
  unfold intervalCallback. run_method using Hjob.
  rewrite Hstatus. cbn. rewrite Hpossible, Hdone.
  run_method using Hjob. rewrite Hres. reflexivity.
Qed.

(** One inconclusive tick: what it leaves alone and what it calls. *)
Lemma inconclusive_tick (net : Remote) (w : World) (job : JobInProgress.t) :
  inProgress w = Some job ->
  inconclusive net = true ->
  exists w' evs,
    intervalCallback net w = Returned tt w'
    /\ inProgress w' = Some job
    /\ database w' = database w
    /\ result w' = result w
    /\ urls w' = urls w
    /\ form w' = form w
    /\ trace w' = trace w ++ evs
    /\ count is_status_check evs = 1%nat
    /\ count is_result_fetch evs = (if result_fetch_fails net then 1 else 0)%nat
    /\ count is_message evs = (if still_waiting net then 0 else 1)%nat
    /\ count is_cancellation evs = 0%nat
    /\ count is_database_write evs = 0%nat
    /\ count is_download evs = 0%nat.
Proof.
  intros Hjob Hkind.
  unfold inconclusive, status_fails, still_waiting, result_fetch_fails,
    says_done in *.
  destruct (checkGenerationStatus net) as [status|err] eqn:Hstatus.
  - destruct (RequestStatusCheck.is_possible status) eqn:Hpossible;
      [|discriminate].
    destruct (RequestStatusCheck.done status) eqn:Hdone; cbn in Hkind |- *.
    + destruct (getGeneratedImageResult net) as [res|err] eqn:Hres;
        [discriminate|].
      eexists. exists [ApiCheckGenerationStatus job;
                       ApiGetGeneratedImageResult job;
                       MessageError (api_error (message err) (rc err))].
      split; [exact (result_failed_tick_run net w job status err
                       Hjob Hstatus Hpossible Hdone Hres)|].
      cbn. rewrite <- !app_assoc. by repeat split.
    + eexists. exists [ApiCheckGenerationStatus job].
      split; [exact (waiting_tick_run net w job status
                       Hjob Hstatus Hpossible Hdone)|].
      by repeat split.
  - eexists. exists [ApiCheckGenerationStatus job;
                     MessageError (api_error (message err) (rc err))].
    split; [exact (status_failed_tick_run net w job err Hjob Hstatus)|].
    cbn. rewrite <- !app_assoc. by repeat split.
Qed.

(** Any number of inconclusive ticks. *)
Lemma inconclusive_ticks (ticks : list Remote) (w : World)
    (job : JobInProgress.t) :
  inProgress w = Some job ->
  forallb inconclusive ticks = true ->
  exists evs,
    inProgress (pollingLoop ticks w) = Some job
    /\ database (pollingLoop ticks w) = database w
    /\ result (pollingLoop ticks w) = result w
    /\ urls (pollingLoop ticks w) = urls w
    /\ form (pollingLoop ticks w) = form w
    /\ trace (pollingLoop ticks w) = trace w ++ evs
    /\ count is_status_check evs = length ticks
    /\ count is_result_fetch evs = length (List.filter result_fetch_fails ticks)
    /\ count is_message evs
       = length (List.filter (fun net => negb (still_waiting net)) ticks)
    /\ count is_cancellation evs = 0%nat
    /\ count is_database_write evs = 0%nat
    /\ count is_download evs = 0%nat.
Proof.
  revert w. induction ticks as [|net later IH]; intros w Hjob Hkinds.
  - exists []. cbn. rewrite app_nil_r. by repeat split.
  - cbn in Hkinds. apply andb_prop in Hkinds as [Hkind Hlater].
    destruct (inconclusive_tick net w job Hjob Hkind)
      as (w1 & evs1 & Hrun & Hjob1 & Hdb1 & Hres1 & Hurls1 & Hform1 & Htr1
          & Hs1 & Hr1 & Hm1 & Hc1 & Hd1 & Hg1).
    destruct (IH w1 Hjob1 Hlater)
      as (evs & Hjob' & Hdb' & Hres' & Hurls' & Hform' & Htr'
          & Hs & Hr & Hm & Hc & Hd & Hg).
    exists (evs1 ++ evs). cbn [pollingLoop]. rewrite Hrun. cbn [final_world].
    rewrite Hjob', Hdb', Hres', Hurls', Hform', Htr', Htr1, Hdb1, Hres1,
      Hurls1, Hform1.
    rewrite !count_app, Hs1, Hr1, Hm1, Hc1, Hd1, Hg1, Hs, Hr, Hm, Hc, Hd, Hg.
    rewrite <- app_assoc. cbn [List.filter length].
    repeat split; try reflexivity.
    + by destruct (result_fetch_fails net).
    + by destruct (still_waiting net).
Qed.

(** X1.  While the remote side only gives inconclusive answers (a failed
    status check, a status that is possible and not done, a failed result
    fetch), the loop keeps the job: after any number of such ticks the job
    is still held, the store, the displayed result and the object URLs are
    untouched, and the loop made one status check per tick, one result
    fetch per failed result fetch, one error message per failure, and no
    cancellation, download or database write. *)
Theorem inconclusive_ticks_keep_the_job
    (ticks : list Remote) (w : World) (job : JobInProgress.t) :
  inProgress w = Some job ->
  forallb inconclusive ticks = true ->
  let w' := pollingLoop ticks w in
  let calls := calls_since w w' in
  inProgress w' = Some job
  /\ database w' = database w
  /\ result w' = result w
  /\ urls w' = urls w
  /\ count is_status_check calls = length ticks
  /\ count is_result_fetch calls
     = length (List.filter result_fetch_fails ticks)
  /\ count is_message calls
     = length (List.filter (fun net => negb (still_waiting net)) ticks)
  /\ count is_cancellation calls = 0%nat
  /\ count is_download calls = 0%nat
  /\ count is_database_write calls = 0%nat.
Proof.
  intros Hjob Hkinds w' calls.
  destruct (inconclusive_ticks ticks w job Hjob Hkinds)
    as (evs & Hjob' & Hdb' & Hres' & Hurls' & _ & Htr'
        & Hs & Hr & Hm & Hc & Hd & Hg).
  subst calls w'. rewrite (calls_since_trace _ _ evs Htr').
  by repeat split.
Qed.

Lemma inconclusive_ticks_witness :
  let ticks := [Sample.net_waiting; Scenario.net_status_down;
                Sample.net_result_unavailable; Sample.net_waiting] in
  inProgress Sample.polling = Some Sample.job
  /\ forallb inconclusive ticks = true
  /\ inProgress (pollingLoop ticks Sample.polling) = Some Sample.job
  /\ count is_status_check
       (calls_since Sample.polling (pollingLoop ticks Sample.polling)) = 4%nat
  /\ count is_result_fetch
       (calls_since Sample.polling (pollingLoop ticks Sample.polling)) = 1%nat
  /\ count is_message
       (calls_since Sample.polling (pollingLoop ticks Sample.polling)) = 2%nat.
Proof.
  cbv zeta. split; [reflexivity|]. split; [reflexivity|].
  destruct (inconclusive_ticks_keep_the_job
              [Sample.net_waiting; Scenario.net_status_down;
               Sample.net_result_unavailable; Sample.net_waiting]
              Sample.polling Sample.job eq_refl eq_refl)
    as (Hjob & _ & _ & _ & Hs & Hr & Hm & _).
  split; [exact Hjob|]. split; [exact Hs|]. split; [exact Hr | exact Hm].
Defined.

(** ** The done branch with an image *)





(** ** Downloads that fail *)

Lemma downloadImages_nothing (net : Remote) (res : RequestStatusFull.t)
    (metadata : option JobMetadata.t) (w : World) :
  RequestStatusFull.generations res = [] ->
  downloadImages net res metadata w =
    Thrown (TypeError "Cannot read properties of undefined (reading 'body')") w.
Proof.
  intros Hgens. destruct res as [generations kudos]. cbn in Hgens.
  subst generations. unfold downloadImages, bind. rewrite push_requests_run.
  cbn. by rewrite record_all_nil.
Qed.

Lemma count_downloads (p : Event -> bool)
    (generations : list GenerationResult.t) :
  (forall url, p (HttpGet url) = false) ->
  count p (map (fun g => HttpGet (GenerationResult.img g)) generations)
  = 0%nat.
Proof.
  intros Hp. unfold count.
  induction generations as [|g l IH]; [reflexivity|].
  cbn. by rewrite Hp.
Qed.

(** One tick whose download fails. *)
Lemma download_failed_tick (net : Remote) (w : World)
    (job : JobInProgress.t) :
  inProgress w = Some job ->
  download_fails net = true ->
  exists e w' evs,
    intervalCallback net w = Thrown e w'
    /\ inProgress w' = Some job
    /\ database w' = database w
    /\ result w' = result w
    /\ urls w' = urls w
    /\ loading w' = true
    /\ trace w' = trace w ++ evs
    /\ count is_status_check evs = 1%nat
    /\ count is_result_fetch evs = 1%nat
    /\ count is_message evs = 0%nat
    /\ count is_cancellation evs = 0%nat
    /\ count is_database_write evs = 0%nat.
Proof.
  intros Hjob Hkind. unfold download_fails, says_done in Hkind.
  destruct (checkGenerationStatus net) as [status|err] eqn:Hstatus;
    [|discriminate].
  destruct (RequestStatusCheck.is_possible status) eqn:Hpossible;
    [|discriminate].
  destruct (RequestStatusCheck.done status) eqn:Hdone; [|discriminate].
  destruct (getGeneratedImageResult net) as [res|err] eqn:Hres;
    [|discriminate].
  cbn [andb] in Hkind.
  rewrite (done_tick_run net w job status res) by assumption.
  unfold bind at 1.
  destruct (RequestStatusFull.generations res) as [|first rest] eqn:Hgens.
  - rewrite (downloadImages_nothing net res _ _ Hgens).
    do 2 eexists.
    exists [ApiCheckGenerationStatus job; ApiGetGeneratedImageResult job;
            DbGetJobMetadata job].
    split; [reflexivity|]. cbn. rewrite <- ?app_assoc. by repeat split.
  - apply negb_true_iff in Hkind. rewrite <- Hgens in Hkind.
    destruct (downloadImages_rejected net res
                (DatabaseService.getJobMetadata job (database w))
                (record (DbGetJobMetadata job)
                   (record (ApiGetGeneratedImageResult job)
                      (set_loading true
                         (set_requestStatus (Some status)
                            (record (ApiCheckGenerationStatus job) w)))))
                Hkind) as [url ->].
    pose (evs := [ApiCheckGenerationStatus job;
                  ApiGetGeneratedImageResult job; DbGetJobMetadata job]
                 ++ map (fun g => HttpGet (GenerationResult.img g))
                        (RequestStatusFull.generations res)).
    assert (Hcounts : count is_status_check evs = 1%nat
                      /\ count is_result_fetch evs = 1%nat
                      /\ count is_message evs = 0%nat
                      /\ count is_cancellation evs = 0%nat
                      /\ count is_database_write evs = 0%nat).
    { subst evs. rewrite !count_app, !count_downloads by reflexivity.
      by repeat split. }
    do 2 eexists. exists evs. split; [reflexivity|].
    split; [exact Hjob|]. do 4 (split; [reflexivity|]).
    split; [|exact Hcounts].
    subst evs. cbn. rewrite <- ?app_assoc. reflexivity.
Qed.

(** X3.  A done job whose result lists no generation, or one of whose
    downloads is rejected, is never given up and never reported: every
    such tick ends in an exception after a status check and a result
    fetch, so that after any number of them (at least one) the job is
    still held and persisted, nothing is displayed or handed to the
    message service, the busy flag is left set, and the result was fetched
    once per tick. *)
Theorem failing_downloads_stall_the_job
    (ticks : list Remote) (w : World) (job : JobInProgress.t) :
  inProgress w = Some job ->
  ticks <> [] ->
  forallb download_fails ticks = true ->
  let w' := pollingLoop ticks w in
  let calls := calls_since w w' in
  inProgress w' = Some job
  /\ database w' = database w
  /\ result w' = result w
  /\ urls w' = urls w
  /\ loading w' = true
  /\ count is_status_check calls = length ticks
  /\ count is_result_fetch calls = length ticks
  /\ count is_message calls = 0%nat
  /\ count is_cancellation calls = 0%nat
  /\ count is_database_write calls = 0%nat
  /\ (forall net w0, In net ticks -> inProgress w0 = Some job ->
        ~ completes (intervalCallback net w0)).
Proof.
  intros Hjob Hsome Hkinds w' calls. subst calls w'.
  assert (Hthrows : forall net w0, In net ticks ->
            inProgress w0 = Some job ->
            ~ completes (intervalCallback net w0)).
  { intros net w0 Hin Hjob0.
    pose proof (proj1 (forallb_forall _ _) Hkinds net Hin) as Hkind.
    destruct (download_failed_tick net w0 job Hjob0 Hkind)
      as (e & w1 & evs & -> & _). intros []. }
  assert (Hloop : forall ticks w, inProgress w = Some job ->
            forallb download_fails ticks = true ->
            exists evs,
              inProgress (pollingLoop ticks w) = Some job
              /\ database (pollingLoop ticks w) = database w
              /\ result (pollingLoop ticks w) = result w
              /\ urls (pollingLoop ticks w) = urls w
              /\ (ticks <> [] -> loading (pollingLoop ticks w) = true)
              /\ trace (pollingLoop ticks w) = trace w ++ evs
              /\ count is_status_check evs = length ticks
              /\ count is_result_fetch evs = length ticks
              /\ count is_message evs = 0%nat
              /\ count is_cancellation evs = 0%nat
              /\ count is_database_write evs = 0%nat).
  { clear. induction ticks as [|net later IH]; intros w Hjob Hkinds.
    - exists []. cbn. rewrite app_nil_r. by repeat split.
    - cbn in Hkinds. apply andb_prop in Hkinds as [Hkind Hlater].
      destruct (download_failed_tick net w job Hjob Hkind)
        as (e & w1 & evs1 & Hrun & Hjob1 & Hdb1 & Hres1 & Hurls1 & Hload1
            & Htr1 & Hs1 & Hr1 & Hm1 & Hc1 & Hd1).
      destruct (IH w1 Hjob1 Hlater)
        as (evs & Hjob' & Hdb' & Hres' & Hurls' & Hload' & Htr'
            & Hs & Hr & Hm & Hc & Hd).
      exists (evs1 ++ evs). cbn [pollingLoop]. rewrite Hrun.
      cbn [final_world].
      rewrite Hjob', Hdb', Hres', Hurls', Htr', Htr1, Hdb1, Hres1, Hurls1.
      rewrite !count_app, Hs1, Hr1, Hm1, Hc1, Hd1, Hs, Hr, Hm, Hc, Hd.
      rewrite <- app_assoc. repeat split; try reflexivity.
      intros _. destruct later as [|net' later']; [exact Hload1|].
      by apply Hload'. }
  destruct (Hloop ticks w Hjob Hkinds)
    as (evs & Hjob' & Hdb' & Hres' & Hurls' & Hload' & Htr'
        & Hs & Hr & Hm & Hc & Hd).
  rewrite (calls_since_trace _ _ evs Htr').
  do 10 (split; [auto|]). exact Hthrows.
Qed.

Lemma failing_downloads_witness :
  let ticks := [Sample.net_download_rejected; Scenario.net_nothing_generated;
                Scenario.net_second_rejected] in
  let w' := pollingLoop ticks Sample.polling in
  inProgress Sample.polling = Some Sample.job
  /\ ticks <> []
  /\ forallb download_fails ticks = true
  /\ inProgress w' = Some Sample.job
  /\ result w' = None
  /\ loading w' = true
  /\ count is_result_fetch (calls_since Sample.polling w') = 3%nat
  /\ count is_message (calls_since Sample.polling w') = 0%nat.
Proof.
  cbv zeta. split; [reflexivity|]. split; [discriminate|].
  split; [reflexivity|].
  destruct (failing_downloads_stall_the_job
              [Sample.net_download_rejected; Scenario.net_nothing_generated;
               Scenario.net_second_rejected]
              Sample.polling Sample.job eq_refl
              ltac:(discriminate) eq_refl)
    as (Hjob & _ & Hres & _ & Hload & _ & Hr & Hm & _).
  split; [exact Hjob|]. split; [exact Hres|]. split; [exact Hload|].
  split; [exact Hr | exact Hm].
Defined.

(** X4.  A done tick on a held job whose metadata is not cached: when the
    first body is an image (and all downloads resolve), the object URL is
    created before the metadata is read, the read throws, and the tick
    ends in a TypeError with no Result assigned, the job still held and
    persisted, the busy flag set, nothing reported, and the fresh object
    URL live although no Result holds it. *)
Theorem missing_metadata_leaks_the_object_url
    (net : Remote) (w : World) (job : JobInProgress.t)
    (status : RequestStatusCheck.t) (res : RequestStatusFull.t)
    (first : GenerationResult.t) (rest : list GenerationResult.t)
    (image : Blob) :
  inProgress w = Some job ->
  checkGenerationStatus net = ApiSuccess status ->
  RequestStatusCheck.is_possible status = true ->
  RequestStatusCheck.done status = true ->
  getGeneratedImageResult net = ApiSuccess res ->
  RequestStatusFull.generations res = first :: rest ->
  httpGet net 0 (GenerationResult.img first) = HttpResolved (Some image) ->
  all_resolved (requests net 1 rest) = true ->
  DatabaseService.getJobMetadata job (database w) = None ->
  exists msg w',
    intervalCallback net w = Thrown (TypeError msg) w'
    /\ result w' = result w
    /\ inProgress w' = Some job
    /\ database w' = database w
    /\ loading w' = true
    /\ count is_message (calls_since w w') = 0%nat
    /\ URL.live (urls w') !! URL.blob_url (URL.issued (urls w)) = Some image
    /\ URL.issued (urls w') = S (URL.issued (urls w)).
Proof.
  intros Hjob Hstatus Hpossible Hdone Hres Hgens Hfirst Hrest Hmd.
  rewrite (done_tick_run net w job status res) by assumption.
  unfold bind at 1. rewrite Hmd.
  destruct res as [generations kudos]. cbn in Hgens. subst generations.
  unfold downloadImages, bind. rewrite push_requests_run.
  unfold await_all. cbn [RequestStatusFull.generations].
  rewrite (requests_first_resolved net first rest _ Hfirst Hrest).
  unfold_calls. unfold_monad. cbn.
  do 2 eexists. split; [reflexivity|]. cbn.
  do 4 (split; [done|]). split; [|split; [apply lookup_insert_eq | done]].
  rewrite (calls_since_trace _ _
    ([ApiCheckGenerationStatus job; ApiGetGeneratedImageResult job;
      DbGetJobMetadata job]
     ++ map (fun g => HttpGet (GenerationResult.img g)) (first :: rest)
     ++ [ConsoleLog; UrlCreateObjectURL (URL.blob_url (URL.issued (urls w)))])).
  - rewrite !count_app, count_downloads by reflexivity. reflexivity.
  - cbn. rewrite <- ?app_assoc. cbn. rewrite <- ?app_assoc. reflexivity.
Qed.

Lemma missing_metadata_witness :
  inProgress Scenario.polling_without_metadata = Some Sample.job
  /\ DatabaseService.getJobMetadata Sample.job
       (database Scenario.polling_without_metadata) = None
  /\ exists msg w',
       intervalCallback Sample.net_done Scenario.polling_without_metadata
       = Thrown (TypeError msg) w'
       /\ result w' = None
       /\ inProgress w' = Some Sample.job
       /\ URL.live (urls w') !! "blob:0" = Some Sample.image.
Proof.
  do 2 (split; [reflexivity|]).
  destruct (missing_metadata_leaks_the_object_url Sample.net_done
              Scenario.polling_without_metadata Sample.job Sample.finished
              Sample.full Sample.first [Sample.second] Sample.image
              eq_refl eq_refl eq_refl eq_refl eq_refl eq_refl eq_refl
              eq_refl eq_refl)
    as (msg & w' & Hrun & Hres & Hjob & _ & _ & _ & Hlive & _).
  exists msg, w'. split; [exact Hrun|]. split; [exact Hres|].
  split; [exact Hjob | exact Hlive].
Defined.

(** X5.  Whatever the remote side answers and whatever comes of it,
    [downloadImages] first starts one download per generation of the
    result, in the order of the list, and makes no other download: all
    images are requested although only the first body is looked at. *)
Theorem every_generation_is_downloaded
    (net : Remote) (res : RequestStatusFull.t)
    (metadata : option JobMetadata.t) (w : World) :
  exists evs,
    calls_since w (final_world (downloadImages net res metadata w))
    = map (fun g => HttpGet (GenerationResult.img g))
          (RequestStatusFull.generations res) ++ evs
    /\ count is_download evs = 0%nat
    /\ count is_download
         (calls_since w (final_world (downloadImages net res metadata w)))
       = length (RequestStatusFull.generations res).
Proof.
  assert (Hgets : forall l : list GenerationResult.t,
            count is_download
              (map (fun g => HttpGet (GenerationResult.img g)) l) = length l).
  { induction l as [|g l IH]; [reflexivity|]. unfold count in *. cbn.
    by rewrite IH. }
  assert (Hgoal : exists evs,
            trace (final_world (downloadImages net res metadata w))
            = trace w ++ map (fun g => HttpGet (GenerationResult.img g))
                             (RequestStatusFull.generations res) ++ evs
            /\ count is_download evs = 0%nat).
  { unfold downloadImages, bind. rewrite push_requests_run.
    unfold await_all.
    destruct (promise_all _) as [e|[|[body|] bs]]; cbn.
    - exists []. by rewrite app_nil_r.
    - exists []. by rewrite app_nil_r.
    - unfold_calls. unfold_monad. cbn.
      destruct metadata as [md|], (head (RequestStatusFull.generations res));
        cbn; eexists; (split; [rewrite <- ?app_assoc; reflexivity|]);
        reflexivity.
    - eexists. split; [rewrite <- ?app_assoc; reflexivity|]. reflexivity. }
  destruct Hgoal as (evs & Htrace & Hnone). exists evs.
  rewrite (calls_since_trace _ _ _ Htrace).
  split; [reflexivity|]. split; [exact Hnone|].
  rewrite count_app, Hgets, Hnone. lia.
Qed.

(** ** What a tick never does *)

Lemma calls_since_self (w : World) : calls_since w w = [].
Proof. unfold calls_since. by rewrite drop_all. Qed.

Lemma download_calls_are_no_submission (evs : list Event) :
  forallb is_download_call evs = true ->
  count is_submission evs = 0%nat.
Proof.
  induction evs as [|e evs IH]; [reflexivity|]. cbn.
  intros [He Hevs]%andb_prop. specialize (IH Hevs).
  unfold count in *. destruct e; try discriminate; cbn; exact IH.
Qed.

(** X6.  A tick, whatever the world and the answers of the remote side,
    never submits a generation, never adds a persisted job and never
    stores metadata: the form and the cached metadata are as before, every
    job persisted after the tick was persisted before it, and the tick
    makes at most one status check, one cancellation and one result
    fetch. *)
Theorem tick_only_ever_removes (net : Remote) (w : World) :
  let w' := final_world (intervalCallback net w) in
  let calls := calls_since w w' in
  form w' = form w
  /\ DatabaseService.metadata (database w')
     = DatabaseService.metadata (database w)
  /\ (forall j, j ∈ DatabaseService.jobs (database w') ->
        j ∈ DatabaseService.jobs (database w))
  /\ count is_submission calls = 0%nat
  /\ (count is_status_check calls <= 1)%nat
  /\ (count is_cancellation calls <= 1)%nat
  /\ (count is_result_fetch calls <= 1)%nat.
Proof.
  cbv zeta.
  destruct (intervalCallback_branch net w)
    as [ | | | | |job status res Hjob Hstatus Hpossible Hdone Hres];
    cbn [final_world].
  - rewrite calls_since_self. repeat split; cbn; auto.
  - reduce_calls. repeat split; cbn; auto.
  - reduce_calls. repeat split; cbn; auto.
    intros j Hin. by apply list_elem_of_filter in Hin as [_ ?].
  - reduce_calls. repeat split; cbn; auto.
  - reduce_calls. repeat split; cbn; auto.
  - unfold_calls. unfold_monad. cbn.
    match goal with
    | |- context [downloadImages net res ?md ?w1] =>
        pose proof (downloadImages_frame net res md w1) as Hframe;
        destruct (downloadImages net res md w1) as [[] w2|e w2]
    end; cbn in Hframe;
      destruct Hframe as (_ & _ & Hdb & Hform & _ & (evs & Htrace & Hevs) & _);
      destruct (download_calls_count evs Hevs) as (_ & Hc & Hr & Hs & _);
      pose proof (download_calls_are_no_submission evs Hevs) as Hsub;
      cbn [final_world].
    + rewrite (calls_since_trace _ _
        ([ApiCheckGenerationStatus job; ApiGetGeneratedImageResult job;
          DbGetJobMetadata job] ++ evs ++ [DbDeleteInProgressJob job]))
        by (cbn; rewrite Htrace; cbn; rewrite <- ?app_assoc; reflexivity).
      rewrite !count_app, Hc, Hr, Hs, Hsub. cbn. rewrite Hdb, Hform.
      repeat split; auto.
      intros j Hin. by apply list_elem_of_filter in Hin as [_ ?].
    + rewrite (calls_since_trace _ _
        ([ApiCheckGenerationStatus job; ApiGetGeneratedImageResult job;
          DbGetJobMetadata job] ++ evs))
        by (rewrite Htrace; cbn; rewrite <- ?app_assoc; reflexivity).
      rewrite !count_app, Hc, Hr, Hs, Hsub, Hdb, Hform. cbn.
      repeat split; auto.
Qed.

(** ** Submissions that the API refuses *)

(** X7.  With the guards passed, a submission that the API refuses hands
    the API error to the message service and clears the busy flag; no job
    is held, nothing is written to the store, and yet the result that was
    displayed is gone: its object URL was revoked and the reference
    cleared before the API was asked. *)
Theorem refused_submission_still_drops_the_result
    (err : ErrorResponse) (w : World) :
  form_valid (form w) = true ->
  inProgress w = None ->
  exists w',
    generateImage (ApiFailure err) w = Returned tt w'
    /\ calls_since w w' =
         (match result w with
          | Some r => [UrlRevokeObjectURL (Result.source r)]
          | None => []
          end)
         ++ [ApiGenerateImage (formAsOptions (form w));
             MessageError (api_error (message err) (rc err))]
    /\ result w' = None
    /\ (forall r, result w = Some r ->
          URL.live (urls w') !! Result.source r = None)
    /\ inProgress w' = None
    /\ database w' = database w
    /\ loading w' = false.
Proof.
  intros Hvalid Hidle. eexists. split.
  - rewrite (generateImage_accepted _ w _
               (generateImage_guard_accepts w Hvalid Hidle)).
    apply generateImage_submit_run.
  - split.
    + apply calls_since_trace.
      destruct (result w); cbn; rewrite <- ?app_assoc; reflexivity.
    + destruct (result w) as [r|]; cbn; repeat split; try done.
      intros r' [= <-]. apply lookup_delete_eq.
Qed.

Lemma refused_submission_witness :
  form_valid (form Sample.showing) = true
  /\ inProgress Sample.showing = None
  /\ exists w',
       generateImage (ApiFailure Sample.unavailable) Sample.showing
       = Returned tt w'
       /\ result w' = None
       /\ URL.live (urls w') !! "blob:0" = None
       /\ DatabaseService.jobs (database w') = [].
Proof.
  do 2 (split; [reflexivity|]).
  destruct (refused_submission_still_drops_the_result Sample.unavailable
              Sample.showing eq_refl eq_refl)
    as (w' & Hrun & _ & Hresult & Hlive & _ & Hdb & _).
  exists w'. split; [exact Hrun|]. split; [exact Hresult|].
  split; [exact (Hlive Sample.shown eq_refl)|]. by rewrite Hdb.
Defined.

(** ** Single job in flight, from the reload on *)

(** X8.  When at most one JobInProgress record is persisted as the page
    loads, then after the reload step of [ngOnInit] and any sequence of
    ticks and submissions whatsoever, at most one record is persisted and
    it is the job held in memory: nothing is persisted exactly when no job
    is held. *)
Theorem at_most_one_job_in_any_run (actions : list Action) (w : World) :
  (length (DatabaseService.jobs (database w)) <= 1)%nat ->
  let w' := run actions (final_world (restoreInProgress w)) in
  DatabaseService.jobs (database w') = option_list (inProgress w')
  /\ (length (DatabaseService.jobs (database w')) <= 1)%nat
  /\ (inProgress w' = None <-> DatabaseService.jobs (database w') = []).
Proof.
  intros Hone w'.
  assert (Hconsistent : consistent w').
  { apply run_consistent. by apply restoreInProgress_consistent. }
  unfold consistent in Hconsistent. rewrite Hconsistent.
  destruct (inProgress w') as [job|]; cbn.
  - split; [reflexivity|]. split; [lia|]. split; discriminate.
  - split; [reflexivity|]. split; [lia|]. by split.
Qed.

Lemma at_most_one_job_witness :
  let actions := [Tick Sample.net_waiting; Submit (ApiSuccess Sample.job);
                  Tick Sample.net_done; Submit (ApiSuccess Sample.job)] in
  let w' := run actions (final_world (restoreInProgress Sample.polling)) in
  (length (DatabaseService.jobs (database Sample.polling)) <= 1)%nat
  /\ DatabaseService.jobs (database w') = option_list (inProgress w')
  /\ (length (DatabaseService.jobs (database w')) <= 1)%nat.
Proof.
  cbv zeta. split; [cbn; lia|].
  destruct (at_most_one_job_in_any_run
              [Tick Sample.net_waiting; Submit (ApiSuccess Sample.job);
               Tick Sample.net_done; Submit (ApiSuccess Sample.job)]
              Sample.polling ltac:(cbn; lia))
    as (Hsame & Hone & _).
  split; [exact Hsame | exact Hone].
Defined.

(** ** What a valid form submits *)

(** X10.  When the form is valid, the options built from it are what the
    user entered, within the validators' bounds: prompt and model are the
    non-empty strings of the form, sampler and cfgScale (within 0 and 100)
    those of the form, height and width those of the form, between 64 and
    3072 and multiples of 64, steps those of the form between 1 and 500
    (an integer or not).
    The only defaults that can reach the API are [karras], always true,
    and a denoising strength of 0.75 when that control is empty; otherwise
    the denoising strength lies between 0.01 and 1. *)
Theorem valid_form_submits_what_was_entered (f : Form.t) :
  form_valid f = true ->
  let o := formAsOptions f in
  (Form.prompt f = Some (GenerationOptions.prompt o)
   /\ GenerationOptions.prompt o <> "")
  /\ (Form.model f = Some (GenerationOptions.model o)
      /\ GenerationOptions.model o <> "")
  /\ Form.sampler f = Some (GenerationOptions.sampler o)
  /\ (Form.cfgScale f = Some (GenerationOptions.cfgScale o)
      /\ (0 <= GenerationOptions.cfgScale o <= 100)%Q)
  /\ (Form.height f = Some (GenerationOptions.height o)
      /\ 64 <= GenerationOptions.height o <= 3072
      /\ (64 | GenerationOptions.height o))
  /\ (Form.width f = Some (GenerationOptions.width o)
      /\ 64 <= GenerationOptions.width o <= 3072
      /\ (64 | GenerationOptions.width o))
  /\ (Form.steps f = Some (GenerationOptions.steps o)
      /\ (1 <= GenerationOptions.steps o <= 500)%Q)
  /\ (match Form.denoisingStrength f with
      | Some d => GenerationOptions.denoisingStrength o = d
                  /\ ((1 # 100) <= d <= 1)%Q
      | None => GenerationOptions.denoisingStrength o = (75 # 100)%Q
      end)
  /\ GenerationOptions.karras o = true.
Proof.
  destruct f as [prompt negative sampler cfg denoising height width steps model].
  unfold form_valid, formAsOptions. cbn.
  rewrite !andb_true_iff.
  intros (((((((Hprompt & Hsampler) & (Hcfg & Hcfg0) & Hcfg1) & Hden0 & Hden1)
              & ((Hh & Hh0) & Hh1) & Hh64) & ((Hw & Hw0) & Hw1) & Hw64)
            & (Hs & Hs0) & Hs1) & Hmodel).
  destruct prompt as [prompt|]; [|discriminate].
  destruct sampler as [sampler|]; [|discriminate].
  destruct cfg as [cfg|]; [|discriminate].
  destruct height as [height|]; [|discriminate].
  destruct width as [width|]; [|discriminate].
  destruct steps as [steps|]; [|discriminate].
  destruct model as [model|]; [|discriminate].
  cbn in *.
  apply negb_true_iff, String.eqb_neq in Hprompt, Hmodel.
  apply Qle_bool_iff in Hcfg0, Hcfg1, Hs0, Hs1.
  apply Z.leb_le in Hh0, Hh1, Hw0, Hw1.
  apply Z.eqb_eq, Z.rem_divide in Hh64, Hw64; try lia.
  repeat split; try done.
  destruct denoising as [d|]; [|reflexivity]. cbn in *.
  apply Qle_bool_iff in Hden0, Hden1. by repeat split.
Qed.

Lemma valid_form_witness :
  form_valid Sample.filled = true
  /\ Form.width Sample.filled
     = Some (GenerationOptions.width (formAsOptions Sample.filled))
  /\ (64 | GenerationOptions.width (formAsOptions Sample.filled))
  /\ GenerationOptions.denoisingStrength (formAsOptions Sample.filled)
     = (75 # 100)%Q.
Proof.
  split; [reflexivity|].
  destruct (valid_form_submits_what_was_entered Sample.filled eq_refl)
    as (_ & _ & _ & _ & _ & (Hw & _ & Hw64) & _ & Hden & _).
  split; [exact Hw|]. split; [exact Hw64 | exact Hden].
Defined.

(** ** The page: reload, edits and the cost estimate *)

Lemma tick_form (net : Remote) (w : World) :
  form (final_world (intervalCallback net w)) = form w.
Proof.
  destruct (intervalCallback_branch net w)
    as [ | | | | |job status res Hjob Hstatus Hpossible Hdone Hres];
    try reflexivity.
  unfold_calls. unfold_monad. cbn.
  match goal with
  | |- context [downloadImages net res ?md ?w1] =>
      destruct (downloadImages_frame net res md w1) as (_ & _ & _ & Hform & _);
      destruct (downloadImages net res md w1) as [[] w2|e w2]
  end; exact Hform.
Qed.

Lemma generateImage_form (apiAnswer : ApiResponse JobInProgress.t)
    (w : World) :
  form (final_world (generateImage apiAnswer w)) = form w.
Proof.
  destruct (form_valid (form w)) eqn:Hvalid;
    [destruct (inProgress w) as [job|] eqn:Hjob|].
  - by rewrite (generateImage_rejected apiAnswer w _
               (generateImage_guard_rejects w (or_intror (mk_is_Some _ _ Hjob)))).
  - rewrite (generateImage_accepted apiAnswer w _
               (generateImage_guard_accepts w Hvalid Hjob)).
    rewrite generateImage_submit_run.
    by destruct apiAnswer, (result w).
  - by rewrite (generateImage_rejected apiAnswer w _
               (generateImage_guard_rejects w (or_introl Hvalid))).
Qed.

Lemma formAsOptions_patchValue (o : GenerationOptions.t) (f : Form.t) :
  GenerationOptions.karras o = true ->
  formAsOptions (patchValue o f) = o.
Proof. destruct o. cbn. by intros ->. Qed.

Lemma patchValue_valid (f f0 : Form.t) :
  form_valid f = true -> form_valid (patchValue (formAsOptions f) f0) = true.
Proof.
  destruct f as [prompt negative sampler cfg denoising height width steps model].
  unfold form_valid, patchValue, formAsOptions. cbn.
  rewrite !andb_true_iff.
  intros (((((((Hprompt & Hsampler) & (Hcfg & Hcfg0) & Hcfg1) & Hden0 & Hden1)
              & ((Hh & Hh0) & Hh1) & Hh64) & ((Hw & Hw0) & Hw1) & Hw64)
            & (Hs & Hs0) & Hs1) & Hmodel).
  destruct prompt as [prompt|]; [|discriminate].
  destruct cfg as [cfg|]; [|discriminate].
  destruct height as [height|]; [|discriminate].
  destruct width as [width|]; [|discriminate].
  destruct steps as [steps|]; [|discriminate].
  destruct model as [model|]; [|discriminate].
  destruct denoising as [denoising|]; cbn in *; by repeat split.
Qed.

(** X11.  What the last edit persisted is what the next session starts
    from: after an edit to [f] on a page that watches its form, a reload of
    the page in the browser (whatever the model list answers) shows a form
    that submits the same options as [f] did, with the cost estimate of
    these options; and if [f] was valid, so is the reloaded form. *)
Theorem edits_survive_the_reload
    (calculate : GenerationOptions.t -> Q) (f : Form.t) (p fresh : Page)
    (getModels : ApiResponse (list ActiveModel.t)) :
  valueChanges_subscribed p = true ->
  isBrowser fresh = true ->
  generationOptions fresh = generationOptions (valueChanges calculate f p) ->
  let p' := final_page (ngOnInit calculate getModels fresh) in
  generationOptions (valueChanges calculate f p) = formAsOptions f
  /\ formAsOptions (form (component p')) = formAsOptions f
  /\ kudosCost p' = calculate (formAsOptions f)
  /\ (form_valid f = true -> form_valid (form (component p')) = true).
Proof.
  intros Hwatch Hbrowser Hsame p'.
  assert (Hstored : generationOptions (valueChanges calculate f p)
                    = formAsOptions f).
  { unfold valueChanges. cbn. rewrite Hwatch. reflexivity. }
  rewrite Hstored in *. split; [reflexivity|].
  assert (Hform : form (component p')
                  = patchValue (formAsOptions f) (form (component fresh))).
  { subst p'. unfold ngOnInit. rewrite Hbrowser. cbn.
    destruct getModels; cbn; by rewrite Hsame. }
  assert (Hcost : kudosCost p' = calculate (formAsOptions f)).
  { subst p'. unfold ngOnInit. rewrite Hbrowser. cbn.
    destruct getModels; cbn; by rewrite Hsame. }
  rewrite Hform, Hcost.
  split; [by apply formAsOptions_patchValue|]. split; [reflexivity|].
  apply patchValue_valid.
Qed.

Lemma edits_survive_the_reload_witness :
  let p1 := valueChanges Scenario.calculate Scenario.edited Scenario.ready in
  let fresh := mkPage (component Scenario.reloaded) true 0%Q []
                      (generationOptions p1) false false [] in
  let p' := final_page
              (ngOnInit Scenario.calculate (ApiSuccess Scenario.models) fresh) in
  valueChanges_subscribed Scenario.ready = true
  /\ isBrowser fresh = true
  /\ generationOptions fresh = generationOptions p1
  /\ GenerationOptions.width (formAsOptions (form (component p'))) = 1024
  /\ kudosCost p' = Scenario.calculate (formAsOptions Scenario.edited).
Proof.
  cbv zeta. do 3 (split; [reflexivity|]).
  destruct (edits_survive_the_reload Scenario.calculate Scenario.edited
              Scenario.ready
              (mkPage (component Scenario.reloaded) true 0%Q []
                 (generationOptions
                    (valueChanges Scenario.calculate Scenario.edited
                       Scenario.ready))
                 false false [])
              (ApiSuccess Scenario.models) eq_refl eq_refl eq_refl)
    as (_ & Hform & Hcost & _).
  split; [by rewrite Hform | exact Hcost].
Defined.

(** ** The page: [ngOnInit] *)

(** X12.  In the browser, when the list of models cannot be fetched,
    [ngOnInit] reports the failure and throws: the busy flag is left as it
    was, the list of models is not set and the interval is never
    subscribed, although the persisted job was taken up again and the form
    is watched.  From then on the timer changes nothing: the job that was
    taken up is never polled. *)
Theorem failed_model_list_stops_the_page
    (calculate : GenerationOptions.t -> Q) (err : ErrorResponse) (p : Page) :
  isBrowser p = true ->
  interval_subscribed p = false ->
  exists p',
    ngOnInit calculate (ApiFailure err) p
    = PageThrown (Error "Failed fetching list of models") p'
    /\ page_trace p' =
         page_trace p ++ [DbGetGenerationOptions; DbGetGenerationOptions;
                          ApiGetModels; MessageModelsFetchingFailed]
    /\ loading (component p') = loading (component p)
    /\ availableModels p' = availableModels p
    /\ inProgress (component p')
       = head (DatabaseService.jobs (database (component p)))
    /\ valueChanges_subscribed p' = true
    /\ interval_subscribed p' = false
    /\ forall ticks, page_run calculate (map TimerFires ticks) p' = p'.
Proof.
  intros Hbrowser Hinterval. eexists. split.
  - unfold ngOnInit. rewrite Hbrowser. cbn. reflexivity.
  - cbn. rewrite <- !app_assoc. repeat split; try done.
    intros ticks. induction ticks as [|net ticks IH]; [reflexivity|].
    cbn. rewrite Hinterval. exact IH.
Qed.

Lemma failed_model_list_witness :
  isBrowser Scenario.reloaded = true
  /\ interval_subscribed Scenario.reloaded = false
  /\ exists p',
       ngOnInit Scenario.calculate (ApiFailure Sample.unavailable)
         Scenario.reloaded
       = PageThrown (Error "Failed fetching list of models") p'
       /\ loading (component p') = true
       /\ inProgress (component p') = Some Sample.job
       /\ page_run Scenario.calculate
            (map TimerFires [Sample.net_done; Sample.net_done]) p' = p'.
Proof.
  do 2 (split; [reflexivity|]).
  destruct (failed_model_list_stops_the_page Scenario.calculate
              Sample.unavailable Scenario.reloaded eq_refl eq_refl)
    as (p' & Hrun & _ & Hloading & _ & Hjob & _ & _ & Hticks).
  exists p'. split; [exact Hrun|]. split; [exact Hloading|].
  split; [exact Hjob | apply Hticks].
Defined.

(** X13.  In the browser, when the list of models arrives, [ngOnInit]
    returns with the busy flag cleared and the interval subscribed; the
    models offered are the names of the entries of type image, in the
    order of the answer, so that a name is offered exactly when an entry
    of type image bears it; the form shows the persisted options, the job
    held is the first persisted one (none if there is none) and the cost
    estimate is that of the persisted options. *)
Theorem model_list_starts_the_page
    (calculate : GenerationOptions.t -> Q) (models : list ActiveModel.t)
    (p : Page) :
  isBrowser p = true ->
  exists p',
    ngOnInit calculate (ApiSuccess models) p = PageReturned p'
    /\ availableModels p'
       = map ActiveModel.name (List.filter is_image_model models)
    /\ (forall name,
          name ∈ availableModels p' <->
          exists m, m ∈ models /\ ActiveModel.type m = image
                    /\ ActiveModel.name m = name)
    /\ loading (component p') = false
    /\ interval_subscribed p' = true
    /\ valueChanges_subscribed p' = true
    /\ form (component p')
       = patchValue (generationOptions p) (form (component p))
    /\ inProgress (component p')
       = head (DatabaseService.jobs (database (component p)))
    /\ kudosCost p' = calculate (generationOptions p)
    /\ generationOptions p' = generationOptions p.
Proof.
  intros Hbrowser. eexists. split.
  - unfold ngOnInit. rewrite Hbrowser. cbn. reflexivity.
  - cbn. repeat split; try done.
    + intros Hin. apply list_elem_of_fmap in Hin as (m & -> & Hm).
      apply list_elem_of_In, List.filter_In in Hm as [Hm Himage].
      exists m. split; [by apply list_elem_of_In|]. split; [|reflexivity].
      unfold is_image_model in Himage.
      by destruct (ActiveModel.type m).
    + intros (m & Hm & Htype & <-).
      apply list_elem_of_fmap. exists m. split; [reflexivity|].
      apply list_elem_of_In, List.filter_In. split; [by apply list_elem_of_In|].
      unfold is_image_model. by rewrite Htype.
Qed.

Lemma model_list_witness :
  isBrowser Scenario.reloaded = true
  /\ exists p',
       ngOnInit Scenario.calculate (ApiSuccess Scenario.models)
         Scenario.reloaded = PageReturned p'
       /\ availableModels p' = ["sdxl"; "sd15"]
       /\ loading (component p') = false
       /\ inProgress (component p') = Some Sample.job.
Proof.
  split; [reflexivity|].
  destruct (model_list_starts_the_page Scenario.calculate Scenario.models
              Scenario.reloaded eq_refl)
    as (p' & Hrun & Hmodels & _ & Hloading & _ & _ & _ & Hjob & _).
  exists p'. split; [exact Hrun|]. split; [exact Hmodels|].
  split; [exact Hloading | exact Hjob].
Defined.

(** ** The page: what stays true while it is used *)

(** X14.  Once [ngOnInit] ran in the browser (to its end or into the
    model-list error), whatever the timer and the user do afterwards, the
    cost estimate on display is the cost of the persisted options; and
    when the persisted options had [karras] set, as all options stored by
    this page have, they are at every moment the options that the form
    would submit. *)
Theorem cost_estimate_follows_the_form
    (calculate : GenerationOptions.t -> Q)
    (getModels : ApiResponse (list ActiveModel.t))
    (actions : list (PageAction)) (p : Page) :
  isBrowser p = true ->
  let p' := page_run calculate actions
              (final_page (ngOnInit calculate getModels p)) in
  kudosCost p' = calculate (generationOptions p')
  /\ (GenerationOptions.karras (generationOptions p) = true ->
      generationOptions p' = formAsOptions (form (component p'))).
Proof.
  intros Hbrowser p'.
  set (ok := fun q : Page =>
         valueChanges_subscribed q = true
         /\ kudosCost q = calculate (generationOptions q)
         /\ (GenerationOptions.karras (generationOptions p) = true ->
             generationOptions q = formAsOptions (form (component q)))).
  assert (Hinit : ok (final_page (ngOnInit calculate getModels p))).
  { unfold ngOnInit. rewrite Hbrowser.
    destruct getModels; cbn; (split; [reflexivity|]);
      (split; [reflexivity|]); intros Hkarras; symmetry;
      exact (formAsOptions_patchValue (generationOptions p)
               (form (component p)) Hkarras). }
  assert (Hstep : forall a q, ok q -> ok (page_perform calculate a q)).
  { intros [net|apiAnswer|f] q (Hwatch & Hcost & Hsame); cbn.
    - destruct (interval_subscribed q); [|by repeat split].
      split; [exact Hwatch|]. split; [exact Hcost|]. cbn.
      intros Hkarras. rewrite tick_form. by apply Hsame.
    - split; [exact Hwatch|]. split; [exact Hcost|]. cbn.
      intros Hkarras. rewrite generateImage_form. by apply Hsame.
    - unfold valueChanges. cbn. rewrite Hwatch. by repeat split. }
  assert (Hrun : forall actions q, ok q -> ok (page_run calculate actions q)).
  { clear - Hstep. induction actions as [|a later IH]; intros q Hq;
      [exact Hq|]. cbn. apply IH. by apply Hstep. }
  destruct (Hrun actions _ Hinit) as (_ & Hcost & Hsame).
  split; [exact Hcost | exact Hsame].
Qed.

Lemma cost_estimate_witness :
  let actions := [UserEdits Scenario.edited; TimerFires Sample.net_waiting;
                  UserSubmits (ApiSuccess Sample.job)] in
  let p' := page_run Scenario.calculate actions
              (final_page
                 (ngOnInit Scenario.calculate (ApiSuccess Scenario.models)
                    Scenario.reloaded)) in
  isBrowser Scenario.reloaded = true
  /\ kudosCost p' = Scenario.calculate (generationOptions p')
  /\ generationOptions p' = formAsOptions Scenario.edited.
Proof.
  cbv zeta. split; [reflexivity|].
  destruct (cost_estimate_follows_the_form Scenario.calculate
              (ApiSuccess Scenario.models)
              [UserEdits Scenario.edited; TimerFires Sample.net_waiting;
               UserSubmits (ApiSuccess Sample.job)]
              Scenario.reloaded eq_refl)
    as (Hcost & Hsame).
  split; [exact Hcost|]. rewrite (Hsame eq_refl). reflexivity.
Defined.




(** ** The application shell *)

Lemma deliver_cons (event : AppComponent.VersionEvent)
    (events : list AppComponent.VersionEvent) (s : AppComponent.t) :
  AppComponent.deliver (event :: events) s
  = AppComponent.deliver events (AppComponent.versionUpdates event s).
Proof. reflexivity. Qed.

(** The version events only ever add toasts. *)
Lemma deliver_frame (events : list AppComponent.VersionEvent)
    (s : AppComponent.t) :
  AppComponent.updateChecked (AppComponent.deliver events s)
  = AppComponent.updateChecked s
  /\ AppComponent.subscribed (AppComponent.deliver events s)
     = AppComponent.subscribed s
  /\ AppComponent.apiKey (AppComponent.deliver events s)
     = AppComponent.apiKey s
  /\ AppComponent.anonymousApiKey (AppComponent.deliver events s)
     = AppComponent.anonymousApiKey s
  /\ AppComponent.currentUser_calls (AppComponent.deliver events s)
     = AppComponent.currentUser_calls s.
Proof.
  revert s. induction events as [|event events IH]; intros s;
    [by repeat split|].
  rewrite deliver_cons.
  destruct (IH (AppComponent.versionUpdates event s))
    as (-> & -> & -> & -> & ->).
  unfold AppComponent.versionUpdates.
  destruct (AppComponent.subscribed s) eqn:Hsub,
    (AppComponent.updateChecked s) eqn:Hchecked, event; by repeat split.
Qed.

Lemma deliver_toasts (events : list AppComponent.VersionEvent)
    (s : AppComponent.t) :
  AppComponent.toasts (AppComponent.deliver events s)
  = (AppComponent.toasts s
     + if AppComponent.subscribed s && negb (AppComponent.updateChecked s)
       then length (List.filter AppComponent.is_ready events)
       else 0)%nat.
Proof.
  revert s. induction events as [|event events IH]; intros s.
  - cbn. destruct (_ && _); lia.
  - rewrite deliver_cons, IH. unfold AppComponent.versionUpdates.
    destruct (AppComponent.subscribed s) eqn:Hsub,
      (AppComponent.updateChecked s) eqn:Hchecked, event; cbn;
      rewrite ?Hsub, ?Hchecked; cbn; lia.
Qed.

Lemma check_apiKey_frame (env : AppComponent.Startup) (s : AppComponent.t) :
  AppComponent.toasts (AppComponent.check_apiKey env s) = AppComponent.toasts s
  /\ AppComponent.updateChecked (AppComponent.check_apiKey env s)
     = AppComponent.updateChecked s
  /\ AppComponent.subscribed (AppComponent.check_apiKey env s)
     = AppComponent.subscribed s.
Proof.
  unfold AppComponent.check_apiKey.
  destruct (negb (_ =? _)%string),
    (negb (AppComponent.currentUser_success env)); by repeat split.
Qed.

(** X16.  With the service worker enabled and no update check done yet,
    [ngOnInit] shows one toast per VERSION_READY event that arrives while
    [checkForUpdate()] is awaited, and no other.  Once the check has
    resolved, no version event shows a toast any more; if instead the
    check rejects, [ngOnInit] ends there and every later VERSION_READY
    event still shows one. *)
Theorem update_toasts_only_around_the_check
    (env : AppComponent.Startup) (s : AppComponent.t)
    (later : list AppComponent.VersionEvent) :
  AppComponent.isEnabled env = true ->
  AppComponent.updateChecked s = false ->
  let s' := snd (AppComponent.ngOnInit env s) in
  fst (AppComponent.ngOnInit env s) = AppComponent.checkForUpdate_resolves env
  /\ AppComponent.toasts s'
     = (AppComponent.toasts s
        + length (List.filter AppComponent.is_ready
                    (AppComponent.during_check env)))%nat
  /\ AppComponent.updateChecked s' = AppComponent.checkForUpdate_resolves env
  /\ AppComponent.toasts (AppComponent.deliver later s')
     = (AppComponent.toasts s'
        + if AppComponent.checkForUpdate_resolves env then 0
          else length (List.filter AppComponent.is_ready later))%nat.
Proof.
  intros Henabled Hunchecked. cbv zeta.
  unfold AppComponent.ngOnInit. rewrite Henabled.
  set (s1 := AppComponent.mk _ true _ _ _ _).
  destruct (deliver_frame (AppComponent.during_check env) s1)
    as (Hchecked & Hsub & _).
  pose proof (deliver_toasts (AppComponent.during_check env) s1) as Htoasts.
  cbn in Hchecked, Hsub, Htoasts. rewrite Hunchecked in Hchecked, Htoasts.
  cbn in Htoasts.
  destruct (AppComponent.checkForUpdate_resolves env); cbn [fst snd].
  - match goal with
    | |- context [AppComponent.check_apiKey env ?q] =>
        destruct (check_apiKey_frame env q) as (Ht & Hc & Hs)
    end.
    rewrite (deliver_toasts later), Ht, Hc, Hs. cbn.
    rewrite Htoasts, andb_false_r. repeat split; lia.
  - rewrite (deliver_toasts later), Hsub, Hchecked, Htoasts. cbn.
    repeat split; lia.
Qed.

Lemma update_toasts_witness :
  AppComponent.isEnabled Scenario.startup = true
  /\ AppComponent.updateChecked Scenario.shell = false
  /\ AppComponent.toasts (snd (AppComponent.ngOnInit Scenario.startup
                                 Scenario.shell)) = 1%nat
  /\ AppComponent.toasts
       (AppComponent.deliver
          [AppComponent.VERSION_READY; AppComponent.VERSION_READY]
          (snd (AppComponent.ngOnInit Scenario.startup Scenario.shell)))
     = 1%nat.
Proof.
  do 2 (split; [reflexivity|]).
  destruct (update_toasts_only_around_the_check Scenario.startup
              Scenario.shell
              [AppComponent.VERSION_READY; AppComponent.VERSION_READY]
              eq_refl eq_refl)
    as (_ & Hshown & _ & Hlater).
  split; [exact Hshown|]. rewrite Hlater. exact Hshown.
Defined.

(** X17.  When [ngOnInit] of the application runs to its end, the API key
    in use is the anonymous key or a key that [currentUser()] has just
    accepted: a stored key that is refused is replaced by the anonymous
    key.  [currentUser()] is called once if the stored key is not the
    anonymous one and not at all otherwise; and when the update check
    rejects, [ngOnInit] ends before the key is looked at. *)
Theorem stored_api_key_is_checked
    (env : AppComponent.Startup) (s : AppComponent.t) :
  let s' := snd (AppComponent.ngOnInit env s) in
  AppComponent.anonymousApiKey s' = AppComponent.anonymousApiKey s
  /\ (fst (AppComponent.ngOnInit env s) = true ->
      (AppComponent.apiKey s' = AppComponent.anonymousApiKey s
       \/ (AppComponent.apiKey s' = AppComponent.apiKey s
           /\ AppComponent.currentUser_success env = true))
      /\ (AppComponent.currentUser_success env = false ->
          AppComponent.apiKey s' = AppComponent.anonymousApiKey s)
      /\ AppComponent.currentUser_calls s'
         = (AppComponent.currentUser_calls s
            + if String.eqb (AppComponent.apiKey s)
                            (AppComponent.anonymousApiKey s)
              then 0 else 1)%nat)
  /\ (fst (AppComponent.ngOnInit env s) = false ->
      AppComponent.apiKey s' = AppComponent.apiKey s
      /\ AppComponent.currentUser_calls s' = AppComponent.currentUser_calls s).
Proof.
  cbv zeta. unfold AppComponent.ngOnInit.
  assert (Hcheck : forall q,
            AppComponent.apiKey q = AppComponent.apiKey s ->
            AppComponent.anonymousApiKey q = AppComponent.anonymousApiKey s ->
            AppComponent.currentUser_calls q
            = AppComponent.currentUser_calls s ->
            let q' := AppComponent.check_apiKey env q in
            AppComponent.anonymousApiKey q' = AppComponent.anonymousApiKey s
            /\ (AppComponent.apiKey q' = AppComponent.anonymousApiKey s
                \/ (AppComponent.apiKey q' = AppComponent.apiKey s
                    /\ AppComponent.currentUser_success env = true))
            /\ (AppComponent.currentUser_success env = false ->
                AppComponent.apiKey q' = AppComponent.anonymousApiKey s)
            /\ AppComponent.currentUser_calls q'
               = (AppComponent.currentUser_calls s
                  + if String.eqb (AppComponent.apiKey s)
                                  (AppComponent.anonymousApiKey s)
                    then 0 else 1)%nat).
  { intros q Hkey Hanon Hcalls. cbn. unfold AppComponent.check_apiKey.
    rewrite Hkey, Hanon.
    destruct (String.eqb_spec (AppComponent.apiKey s)
                (AppComponent.anonymousApiKey s)) as [Heq|Hne]; cbn.
    - rewrite Hkey, Hanon, Hcalls. repeat split; auto; try lia.
    - destruct (AppComponent.currentUser_success env); cbn;
        rewrite ?Hkey, ?Hanon, ?Hcalls; repeat split; auto; try lia;
        try discriminate. }
  destruct (AppComponent.isEnabled env).
  - set (s1 := AppComponent.mk _ true _ _ _ _).
    destruct (deliver_frame (AppComponent.during_check env) s1)
      as (_ & _ & Hkey & Hanon & Hcalls).
    cbn in Hkey, Hanon, Hcalls.
    destruct (AppComponent.checkForUpdate_resolves env); cbn [fst snd].
    + destruct (Hcheck (AppComponent.mk true
                          (AppComponent.subscribed
                             (AppComponent.deliver
                                (AppComponent.during_check env) s1))
                          (AppComponent.toasts
                             (AppComponent.deliver
                                (AppComponent.during_check env) s1))
                          (AppComponent.apiKey
                             (AppComponent.deliver
                                (AppComponent.during_check env) s1))
                          (AppComponent.anonymousApiKey
                             (AppComponent.deliver
                                (AppComponent.during_check env) s1))
                          (AppComponent.currentUser_calls
                             (AppComponent.deliver
                                (AppComponent.during_check env) s1)))
                  Hkey Hanon Hcalls) as (Ha & Hb).
      split; [exact Ha|]. split; [intros _; exact Hb | discriminate].
    + split; [exact Hanon|]. split; [discriminate|]. by intros _.
  - cbn [fst snd].
    destruct (Hcheck s eq_refl eq_refl eq_refl) as (Ha & Hb).
    split; [exact Ha|]. split; [intros _; exact Hb | discriminate].
Qed.

Lemma stored_api_key_witness :
  fst (AppComponent.ngOnInit Scenario.startup Scenario.shell) = true
  /\ AppComponent.currentUser_success Scenario.startup = false
  /\ AppComponent.apiKey (snd (AppComponent.ngOnInit Scenario.startup
                                 Scenario.shell)) = "0000000000"
  /\ AppComponent.currentUser_calls
       (snd (AppComponent.ngOnInit Scenario.startup Scenario.shell)) = 1%nat.
Proof.
  do 2 (split; [reflexivity|]).
  destruct (stored_api_key_is_checked Scenario.startup Scenario.shell)
    as (_ & Hdone & _).
  destruct (Hdone eq_refl) as (_ & Hreplaced & Hcalls).
  split; [exact (Hreplaced eq_refl) | exact Hcalls].
Defined.
